(** * Revenue and expense dashboard (financial_app.py): ledger pipeline

    A shallow embedding of the data pipeline of [financial_app.py]: reading a
    workbook sheet into ledger rows ([load_excel_file]), the summary
    statistics ([calculate_statistics]), the monthly roll-up computed by
    [display_charts], the duplicate scan and removal of the file-management
    page, the audit log ([add_to_history]), the upload loop of the sidebar
    and the manual-entry form.

    A pandas DataFrame is a list of rows, in index order.  The three JSON
    files and the Streamlit session are fields of one [world] record that the
    handlers thread through a small state monad.  Functions of pandas and of
    the standard library whose result on a value is all the code needs
    ([to_numeric], [to_datetime], the JSON encoder, the number format) are
    parameters of the sections that use them.

    The same for the rest of the script: reading the files back at start-up,
    the filters of the data page, the two pie charts, the buttons that
    delete data, files and the log, and the script as a whole, run after
    run, with the rerun that ends most handlers.

    Part I holds the definitions, Part II the properties, Part III runs of
    the code on concrete data. *)

From Stdlib Require Import ZArith Floats.
From stdpp Require Import base list sorting strings pretty.

Set Default Proof Using "Type".
#[local] Set Warnings "-inexact-float".

(** * Amounts

    The numeric columns ['مصروف'] and ['ايراد'] hold numpy numbers: [float64]
    in general, integers when every cell of a column is integral.  The code
    only adds, subtracts, compares with zero and hashes them, so the ledger is
    written over an interface with two instances: binary64 floats and exact
    integers.  [akey] is the representative under which pandas hashes a
    number when it looks for duplicates ([0.0] and [-0.0] collide). *)

Class Amount (A : Type) := {
  azero : A;
  aadd : A → A → A;
  asub : A → A → A;
  aleb : A → A → bool;
  akey : A → A;
  amount_eq_dec :: EqDecision A;
  aleb_zero : aleb azero azero = true;
  asub_zero : asub azero azero = azero;
}.

(** Arithmetic without rounding: what the integer instance has and the
    binary64 instance lacks. *)
Class ExactAmount (A : Type) `{Amount A} : Prop := {
  aadd_assoc : ∀ x y z : A, aadd (aadd x y) z = aadd x (aadd y z);
  aadd_zero_l : ∀ x : A, aadd azero x = x;
  aadd_zero_r : ∀ x : A, aadd x azero = x;
  asub_aadd : ∀ x y u v : A,
    asub (aadd x y) (aadd u v) = aadd (asub x u) (asub y v);
}.

#[export] Instance Z_amount : Amount Z := {|
  azero := 0%Z;
  aadd := Z.add;
  asub := Z.sub;
  aleb := Z.leb;
  akey := λ x, x;
  aleb_zero := eq_refl;
  asub_zero := eq_refl;
|}.

#[export] Instance Z_exact : ExactAmount Z.
Proof. split; simpl; intros; lia. Qed.

(** Addition in any order: again what integers have. *)
Class CommutativeAmount (A : Type) `{Amount A} : Prop := {
  aadd_comm : ∀ x y : A, aadd x y = aadd y x;
}.

#[export] Instance Z_commutative : CommutativeAmount Z.
Proof. split; simpl; intros; lia. Qed.

#[export] Instance float_eq_dec : EqDecision float.
Proof.
  intros x y. destruct (PrimFloat.Leibniz.eqb x y) eqn:E.
  - left. by apply FloatAxioms.Leibniz.eqb_spec.
  - right. intros Hxy. apply FloatAxioms.Leibniz.eqb_spec in Hxy. congruence.
Defined.

Definition float_key (x : float) : float :=
  if PrimFloat.eqb x 0 then 0%float else x.

#[export] Instance float_amount : Amount float := {|
  azero := 0%float;
  aadd := PrimFloat.add;
  asub := PrimFloat.sub;
  aleb := PrimFloat.leb;
  akey := float_key;
  aleb_zero := eq_refl;
  asub_zero := eq_refl;
|}.

(** * Duplicate detection of pandas, over any row type and key

    [DataFrame.duplicated(subset, keep)] hashes the key of every row.  With
    [keep=False] a row is flagged when its key occurs more than once in the
    frame; with [keep='first'] a row is flagged when its key was already met
    higher up.  [df[mask]] keeps the rows whose flag is set, in order, and
    [drop_duplicates(subset, keep='first')] is [df[~duplicated]]. *)

Section pandas_duplicates.
Context {R K : Type} `{EqDecision K} (key : R → K).

Definition occurrences (k : K) (l : list R) : nat :=
  length (filter (λ r, key r = k) l).

Definition duplicated_keep_false (l : list R) : list bool :=
  map (λ r, bool_decide (1 < occurrences (key r) l)) l.

Fixpoint duplicated_seen (seen : list K) (l : list R) : list bool :=
  match l with
  | [] => []
  | r :: l' =>
      if decide (key r ∈ seen) then true :: duplicated_seen seen l'
      else false :: duplicated_seen (key r :: seen) l'
  end.

Definition duplicated_keep_first (l : list R) : list bool :=
  duplicated_seen [] l.

Fixpoint boolean_index (l : list R) (mask : list bool) : list R :=
  match l, mask with
  | r :: l', b :: mask' =>
      if b then r :: boolean_index l' mask' else boolean_index l' mask'
  | _, _ => []
  end.

Definition drop_duplicates (l : list R) : list R :=
  boolean_index l (map negb (duplicated_keep_first l)).

(** The same removal as one recursion: the form the proofs use. *)
Fixpoint keep_unseen (seen : list K) (l : list R) : list R :=
  match l with
  | [] => []
  | r :: l' =>
      if decide (key r ∈ seen) then keep_unseen seen l'
      else r :: keep_unseen (key r :: seen) l'
  end.
End pandas_duplicates.

(** * Sheet cells and ledger rows

    A cell of a sheet as [read_excel] hands it over: empty ([NaN]), a number,
    a text or a date.  The text columns of the ledger keep whatever cell the
    sheet had; the date column holds a pandas [Timestamp] or [NaT] once
    [to_datetime] has run, the two amount columns hold numbers. *)

Inductive cell (A : Type) : Type :=
| Blank
| Num (x : A)
| Text (s : string)
| Date (t : Z).
Arguments Blank {A}.
Arguments Num {A} x.
Arguments Text {A} s.
Arguments Date {A} t.

#[export] Instance cell_eq_dec {A} `{EqDecision A} : EqDecision (cell A).
Proof. solve_decision. Defined.

Definition isna {A} (c : cell A) : bool :=
  match c with Blank => true | _ => false end.

(** Column labels of the sheet ['بيانات']. *)
Definition COL_DATE : string := "التاريخ".
Definition COL_MONTH : string := "الشهر".
Definition COL_ACCOUNT : string := "الحساب".
Definition COL_TYPE : string := "النوع".
Definition COL_DESCRIPTION : string := "وصف العملية".
Definition COL_REFERENCE : string := "المرجع".
Definition COL_EXPENSE : string := "مصروف".
Definition COL_REVENUE : string := "ايراد".

Record transaction (A : Type) : Type := Transaction {
  t_date : option Z;          (* 'التاريخ': Timestamp, or None for NaT *)
  t_month : cell A;           (* 'الشهر' *)
  t_account : cell A;         (* 'الحساب' *)
  t_type : cell A;            (* 'النوع' *)
  t_description : cell A;     (* 'وصف العملية' *)
  t_reference : cell A;       (* 'المرجع' *)
  t_expense : A;              (* 'مصروف' *)
  t_revenue : A;              (* 'ايراد' *)
  addedBy : string;
  addedTimestamp : string;
  addedManually : bool;
}.
Arguments Transaction {A}.
Arguments t_date {A}.
Arguments t_month {A}.
Arguments t_account {A}.
Arguments t_type {A}.
Arguments t_description {A}.
Arguments t_reference {A}.
Arguments t_expense {A}.
Arguments t_revenue {A}.
Arguments addedBy {A}.
Arguments addedTimestamp {A}.
Arguments addedManually {A}.

(** ** The duplicate scan of the file-management page

    [duplicate_cols = ['التاريخ', 'الحساب', 'مصروف', 'ايراد']]. *)

Definition cell_key {A} `{Amount A} (c : cell A) : cell A :=
  match c with Num x => Num (akey x) | _ => c end.

Definition duplicate_cols {A} `{Amount A} (r : transaction A)
  : option Z * cell A * A * A :=
  (t_date r, cell_key (t_account r), akey (t_expense r), akey (t_revenue r)).

(** [duplicates = df[df.duplicated(subset=duplicate_cols, keep=False)]] *)
Definition duplicates {A} `{Amount A} (df : list (transaction A))
  : list (transaction A) :=
  boolean_index df (duplicated_keep_false duplicate_cols df).

(** [df.drop_duplicates(subset=duplicate_cols, keep='first')] *)
Definition remove_duplicates {A} `{Amount A} (df : list (transaction A))
  : list (transaction A) :=
  drop_duplicates duplicate_cols df.

(** * Reading a workbook: [load_excel_file] *)

Definition sheet (A : Type) : Type := list (list (cell A)).

(** An uploaded file: its name and the rows of its sheet ['بيانات'], or
    [None] when the workbook cannot be read or has no such sheet
    ([read_excel] raises). *)
Record uploaded_file (A : Type) : Type := UploadedFile {
  name : string;
  data_sheet : option (sheet A);
}.
Arguments UploadedFile {A}.
Arguments name {A}.
Arguments data_sheet {A}.

(** [pd.read_excel(file, sheet_name='بيانات', header=h)]: row [h] of the sheet
    gives the column labels and the rows below it are the data.  A sheet
    with no row at all gives the empty frame. *)
Record raw_frame (A : Type) : Type := RawFrame {
  columns : list (cell A);
  body : list (list (cell A));
}.
Arguments RawFrame {A}.
Arguments columns {A}.
Arguments body {A}.

Definition read_excel {A} (sh : sheet A) (header : nat) : raw_frame A :=
  match drop header sh with
  | [] => RawFrame [] []
  | labels :: rows => RawFrame labels rows
  end.

(** [needle in hay] on Python strings. *)
Fixpoint contains (needle hay : string) : bool :=
  String.prefix needle hay ||
  match hay with
  | EmptyString => false
  | String _ hay' => contains needle hay'
  end.

(** ['التاريخ' in str(row.values)]: the printed row shows every text cell in
    full between quotes, so the label is found exactly when some text cell
    contains it. *)
Definition mentions_date_label {A} (row : list (cell A)) : bool :=
  existsb (λ c, match c with Text s => contains COL_DATE s | _ => false end) row.

(** The loop over [df.iterrows()]: index of the first row mentioning the
    label, counted in the frame, that is below the row already taken as
    header. *)
Definition find_header_idx {A} (rows : list (list (cell A))) : option nat :=
  fst <$> list_find (λ row, mentions_date_label row = true) rows.

Definition column_position {A} `{EqDecision A} (label : string)
    (cols : list (cell A)) : option nat :=
  fst <$> list_find (λ c, c = Text label) cols.

Definition cell_at {A} (j : nat) (row : list (cell A)) : cell A :=
  default Blank (row !! j).

(** [df[label]] of a row when the frame has the column, [NaN] otherwise
    (what [pd.concat] fills in for a frame lacking the column). *)
Definition cell_of {A} `{EqDecision A} (cols : list (cell A)) (label : string)
    (row : list (cell A)) : cell A :=
  match column_position label cols with
  | Some j => cell_at j row
  | None => Blank
  end.

Inductive exception : Type :=
| SheetUnreadable
| KeyError (label : string).

Inductive load_error : Type :=
| HeaderNotFound
| ReadFailed (e : exception).

Section load.
Context {A : Type} `{Amount A}.
(** [pd.to_numeric(_, errors='coerce')] and [pd.to_datetime(_,
    errors='coerce')] value by value; [None] is [NaN] / [NaT]. *)
Variable to_numeric : cell A → option A.
Variable to_datetime : cell A → option Z.

Definition import_row (cols : list (cell A)) (jd je jr : nat)
    (row : list (cell A)) : transaction A :=
  {| t_date := to_datetime (cell_at jd row);
     t_month := cell_of cols COL_MONTH row;
     t_account := cell_of cols COL_ACCOUNT row;
     t_type := cell_of cols COL_TYPE row;
     t_description := cell_of cols COL_DESCRIPTION row;
     t_reference := cell_of cols COL_REFERENCE row;
     t_expense := default azero (to_numeric (cell_at je row));
     t_revenue := default azero (to_numeric (cell_at jr row));
     addedBy := "";
     addedTimestamp := "";
     addedManually := false |}.

(** The body of the [try] of [load_excel_file].  The first [read_excel] is
    called without [header], that is with [header=0]; [header_idx] is the
    index that [iterrows] gives to the row found, its position in that first
    frame, and it is passed as it is to the second [read_excel]. *)
Definition parse_workbook (file : uploaded_file A)
  : load_error + list (transaction A) :=
  match data_sheet file with
  | None => inl (ReadFailed SheetUnreadable)
  | Some sh =>
    let df := read_excel sh 0 in
    match find_header_idx (body df) with
    | None => inl HeaderNotFound
    | Some header_idx =>
      let df := read_excel sh header_idx in
      let rows := filter (λ row, forallb isna row = false) (body df) in
      match column_position COL_DATE (columns df) with
      | None => inl (ReadFailed (KeyError COL_DATE))
      | Some jd =>
        let rows := filter (λ row, isna (cell_at jd row) = false) rows in
        match column_position COL_EXPENSE (columns df) with
        | None => inl (ReadFailed (KeyError COL_EXPENSE))
        | Some je =>
          match column_position COL_REVENUE (columns df) with
          | None => inl (ReadFailed (KeyError COL_REVENUE))
          | Some jr => inr (map (import_row (columns df) jd je jr) rows)
          end
        end
      end
    end
  end.
End load.

(** * Session, files and screen

    [st.session_state.df] and [st.session_state.loaded_files], the three JSON
    files, what the script has shown on the page, and the clock read by
    [datetime.now()].  A file is absent, holds a JSON document, or holds text
    that [json.load] rejects (what a [json.dump] that raised half-way leaves
    behind).  Failures of the file system itself are not modelled. *)

Inductive doc (T : Type) : Type :=
| Absent
| Json (v : T)
| Garbled.
Arguments Absent {T}.
Arguments Json {T} v.
Arguments Garbled {T}.

Record audit_entry : Type := AuditEntry {
  timestamp : string;
  action : string;
  details : string;
}.

(** An element of [loaded_files]: [{'name': _, 'rows': _, 'date': _}]. *)
Record file_info : Type := FileInfo {
  file_name : string;
  file_rows : nat;
  file_date : string;
}.

Inductive transaction_type : Type :=
| Revenue      (* 'إيراد' *)
| Expense.     (* 'مصروف' *)

(** What [st.error] and [st.success] put on the page; the text of a caught
    exception is kept as the exception itself. *)
Inductive message : Type :=
| ErrSaveData
| ErrLoadHistory
| ErrHeaderNotFound
| ErrReadFile (e : exception)
| ErrStatistics
| ErrValidation
| OkFileLoaded (file : string) (rows : nat)
| OkTransactionAdded (kind : transaction_type) (amount : string)
| OkDuplicatesRemoved (removed : nat).

Record world (A : Type) : Type := World {
  df : option (list (transaction A));
  loaded_files : list file_info;
  DATA_FILE : doc (list (transaction A));
  HISTORY_FILE : doc (list audit_entry);
  FILES_LIST_FILE : doc (list file_info);
  screen : list message;
  clock : nat → string;
  ticks : nat;
}.
Arguments World {A}.
Arguments df {A}.
Arguments loaded_files {A}.
Arguments DATA_FILE {A}.
Arguments HISTORY_FILE {A}.
Arguments FILES_LIST_FILE {A}.
Arguments screen {A}.
Arguments clock {A}.
Arguments ticks {A}.

(** The state monad of the script. *)
Definition App (A X : Type) : Type := world A → X * world A.

#[export] Instance App_ret {A} : MRet (App A) := λ X x w, (x, w).
#[export] Instance App_bind {A} : MBind (App A) :=
  λ X Y f m w, let '(x, w') := m w in f x w'.

Definition get_df {A} : App A (option (list (transaction A))) :=
  λ w, (df w, w).
Definition set_df {A} (v : option (list (transaction A))) : App A unit :=
  λ w, (tt, World v (loaded_files w) (DATA_FILE w) (HISTORY_FILE w)
              (FILES_LIST_FILE w) (screen w) (clock w) (ticks w)).
Definition get_loaded_files {A} : App A (list file_info) :=
  λ w, (loaded_files w, w).
Definition set_loaded_files {A} (v : list file_info) : App A unit :=
  λ w, (tt, World (df w) v (DATA_FILE w) (HISTORY_FILE w)
              (FILES_LIST_FILE w) (screen w) (clock w) (ticks w)).
Definition write_data {A} (v : doc (list (transaction A))) : App A unit :=
  λ w, (tt, World (df w) (loaded_files w) v (HISTORY_FILE w)
              (FILES_LIST_FILE w) (screen w) (clock w) (ticks w)).
Definition read_history {A} : App A (doc (list audit_entry)) :=
  λ w, (HISTORY_FILE w, w).
Definition write_history {A} (v : doc (list audit_entry)) : App A unit :=
  λ w, (tt, World (df w) (loaded_files w) (DATA_FILE w) v
              (FILES_LIST_FILE w) (screen w) (clock w) (ticks w)).
Definition write_files_list {A} (v : doc (list file_info)) : App A unit :=
  λ w, (tt, World (df w) (loaded_files w) (DATA_FILE w) (HISTORY_FILE w)
              v (screen w) (clock w) (ticks w)).
Definition show {A} (m : message) : App A unit :=
  λ w, (tt, World (df w) (loaded_files w) (DATA_FILE w) (HISTORY_FILE w)
              (FILES_LIST_FILE w) (screen w ++ [m]) (clock w) (ticks w)).
(** [datetime.now().isoformat()] *)
Definition now {A} : App A string :=
  λ w, (clock w (ticks w),
        World (df w) (loaded_files w) (DATA_FILE w) (HISTORY_FILE w)
              (FILES_LIST_FILE w) (screen w) (clock w) (S (ticks w))).

(** [pd.concat([a, b], ignore_index=True)]; a [None] among the frames is
    dropped. *)
Definition concat {A} (a : option (list (transaction A)))
    (b : list (transaction A)) : list (transaction A) :=
  default [] a ++ b.

Section app.
Context {A : Type} `{Amount A}.
Variable to_numeric : cell A → option A.
Variable to_datetime : cell A → option Z.
(** Whether [json.dump] can write a row (the standard encoder has no case
    for a pandas [Timestamp]). *)
Variable json_encodable : transaction A → bool.
(** [f"{amount:,.2f}"] *)
Variable format_amount : A → string.

Definition save_data (data : list (transaction A))
    (history : list audit_entry) : App A bool :=
  if forallb json_encodable data then
    write_data (Json data);;
    write_history (Json history);;
    mret true
  else
    write_data Garbled;;
    show ErrSaveData;;
    mret false.

Definition save_files_list (files_list : list file_info) : App A bool :=
  write_files_list (Json files_list);;
  mret true.

Definition load_history : App A (list audit_entry) :=
  d ← read_history;
  match d with
  | Json history => mret history
  | Absent => mret []
  | Garbled => show ErrLoadHistory;; mret []
  end.

Definition add_to_history (action details : string) : App A bool :=
  history ← load_history;
  t ← now;
  let history := AuditEntry t action details :: history in
  let history := take 100 history in
  write_history (Json history);;
  mret true.

(** Successive calls [add_to_history(action, details)]. *)
Fixpoint add_all_to_history (calls : list (string * string)) : App A unit :=
  match calls with
  | [] => mret tt
  | (action, details) :: rest =>
      add_to_history action details;; add_all_to_history rest
  end.

Definition load_excel_file (file : uploaded_file A)
  : App A (option (list (transaction A))) :=
  match parse_workbook to_numeric to_datetime file with
  | inr rows => mret (Some rows)
  | inl HeaderNotFound => show ErrHeaderNotFound;; mret None
  | inl (ReadFailed e) => show (ErrReadFile e);; mret None
  end.

(** The body of the sidebar loop [for file in uploaded_file]. *)
Definition upload_one (file : uploaded_file A) : App A unit :=
  files ← get_loaded_files;
  if decide (name file ∈ map file_name files) then mret tt
  else
    df_new ← load_excel_file file;
    match df_new with
    | None => mret tt
    | Some df_new =>
      t ← now;
      set_loaded_files (files ++ [FileInfo (name file) (length df_new) t]);;
      files ← get_loaded_files;
      save_files_list files;;
      old ← get_df;
      set_df (Some (concat old df_new));;
      history ← load_history;
      save_data (concat old df_new) history;;
      add_to_history "تحميل ملف"
        ("تم تحميل " +:+ pretty (length df_new) +:+ " عملية من " +:+ name file);;
      show (OkFileLoaded (name file) (length df_new))
    end.

Fixpoint upload_files (files : list (uploaded_file A)) : App A unit :=
  match files with
  | [] => mret tt
  | file :: rest => upload_one file;; upload_files rest
  end.
End app.

(** * The manual-entry form and the duplicate-removal button *)

(** The widgets of [add_transaction_form] when the form is submitted;
    [account] is the selected account or, when none is selected, the text
    typed for a new one.  The radio button yields one of its two options. *)
Record form (A : Type) : Type := Form {
  added_by : string;
  transaction_date : Z;
  selected_month : string;
  account : string;
  payment_type : string;
  description : string;
  reference : string;
  kind : transaction_type;
  amount : A;
}.
Arguments Form {A}.
Arguments added_by {A}.
Arguments transaction_date {A}.
Arguments selected_month {A}.
Arguments account {A}.
Arguments payment_type {A}.
Arguments description {A}.
Arguments reference {A}.
Arguments kind {A}.
Arguments amount {A}.

Definition kind_text (k : transaction_type) : string :=
  match k with Revenue => "إيراد" | Expense => "مصروف" end.

Section pages.
Context {A : Type} `{Amount A}.
Variable json_encodable : transaction A → bool.
Variable format_amount : A → string.

(** [not added_by or not selected_month or not account or not payment_type
    or not description or amount <= 0] *)
Definition rejected (f : form A) : bool :=
  bool_decide (added_by f = "") || bool_decide (selected_month f = "") ||
  bool_decide (account f = "") || bool_decide (payment_type f = "") ||
  bool_decide (description f = "") || aleb (amount f) azero.

Definition new_transaction (f : form A) (t : string) : transaction A :=
  {| t_date := Some (transaction_date f);
     t_month := Text (selected_month f);
     t_account := Text (account f);
     t_type := Text (payment_type f);
     t_description := Text (description f);
     t_reference := Text (reference f);
     t_expense := match kind f with Expense => amount f | Revenue => azero end;
     t_revenue := match kind f with Revenue => amount f | Expense => azero end;
     addedBy := added_by f;
     addedTimestamp := t;
     addedManually := true |}.

(** [if submitted:] of the page ['➕ إضافة جديدة']. *)
Definition submit_transaction (f : form A) : App A unit :=
  if rejected f then show ErrValidation
  else
    t ← now;
    old ← get_df;
    set_df (Some (concat old [new_transaction f t]));;
    history ← load_history;
    save_data json_encodable (concat old [new_transaction f t]) history;;
    add_to_history "إضافة عملية جديدة"
      (kind_text (kind f) +:+ " - " +:+ account f +:+ " - " +:+
       format_amount (amount f) +:+ " ريال - بواسطة " +:+ added_by f);;
    show (OkTransactionAdded (kind f) (format_amount (amount f))).

(** The button ['🗑️ حذف التكرارات تلقائياً'] of the file-management page; the
    page is only reached with a frame in the session. *)
Definition remove_duplicates_button : App A unit :=
  old ← get_df;
  match old with
  | None => mret tt
  | Some rows =>
    let before := length rows in
    set_df (Some (remove_duplicates rows));;
    let after := length (remove_duplicates rows) in
    let removed := before - after in
    history ← load_history;
    save_data json_encodable (remove_duplicates rows) history;;
    add_to_history "حذف التكرارات"
      ("تم حذف " +:+ pretty removed +:+ " عملية مكررة");;
    show (OkDuplicatesRemoved removed)
  end.
End pages.

(** * Summary statistics: [calculate_statistics]

    A frame read back from an empty JSON array has no column at all, and
    selecting a column of it raises [KeyError]: that is what the [except] of
    [calculate_statistics] catches.  [Series.sum] is written as the running
    total from zero down the column; numpy adds the blocks of a long column
    pairwise, and for an exact amount type the order does not matter.  The
    conversion [float(_)] of the two totals is the identity on binary64
    numbers and is left out. *)

Inductive frame (A : Type) : Type :=
| Bare
| Table (rows : list (transaction A)).
Arguments Bare {A}.
Arguments Table {A} rows.

Definition frame_concat {A} (a b : frame A) : frame A :=
  match a, b with
  | Bare, _ => b
  | _, Bare => a
  | Table x, Table y => Table (x ++ y)
  end.

Record statistics (A : Type) : Type := Statistics {
  total_revenue : A;
  total_expense : A;
  net_profit : A;
  total_transactions : nat;
}.
Arguments Statistics {A}.
Arguments total_revenue {A}.
Arguments total_expense {A}.
Arguments net_profit {A}.
Arguments total_transactions {A}.

Definition column_sum {A} `{Amount A} (col : transaction A → A)
    (rows : list (transaction A)) : A :=
  fold_left (λ acc r, aadd acc (col r)) rows azero.

Definition calculate_statistics {A} `{Amount A} (df : frame A)
  : App A (statistics A) :=
  match df with
  | Table rows =>
    let total_revenue := column_sum t_revenue rows in
    let total_expense := column_sum t_expense rows in
    let net_profit := asub total_revenue total_expense in
    let total_transactions := length rows in
    mret (Statistics total_revenue total_expense net_profit total_transactions)
  | Bare =>
    show ErrStatistics;;
    mret (Statistics azero azero azero 0)
  end.

(** Field by field sum of two summaries. *)
Definition statistics_add {A} `{Amount A} (s1 s2 : statistics A)
  : statistics A :=
  Statistics (aadd (total_revenue s1) (total_revenue s2))
             (aadd (total_expense s1) (total_expense s2))
             (aadd (net_profit s1) (net_profit s2))
             (total_transactions s1 + total_transactions s2).

(** * The monthly roll-up of [display_charts] *)

Definition month_order : list string :=
  ["يناير"; "فبراير"; "مارس"; "ابريل"; "مايو"; "يونيو";
   "يوليو"; "أغسطس"; "سبتمبر"; "أكتوبر"; "نوفمبر"; "ديسمبر"].

(** The order in which [groupby] lists its keys: numbers before texts (dates
    are put after them). *)
Definition cell_leb {A} `{Amount A} (a b : cell A) : bool :=
  match a, b with
  | Num x, Num y => aleb x y
  | Num _, _ => true
  | Text _, Num _ => false
  | Text s, Text t => String.leb s t
  | Text _, _ => true
  | Date _, (Num _ | Text _) => false
  | Date s, Date t => (s <=? t)%Z
  | Date _, Blank => true
  | Blank, Blank => true
  | Blank, _ => false
  end.

Definition cell_le {A} `{Amount A} (a b : cell A) : Prop := cell_leb a b = true.

#[export] Instance cell_le_dec {A} `{Amount A} (a b : cell A)
  : Decision (cell_le a b).
Proof. unfold cell_le. apply _. Defined.

(** One row of [monthly_data]: the month as a category of [month_order]
    ([None] for [NaN], a label outside the categories), and the two sums. *)
Record monthly_row (A : Type) : Type := MonthlyRow {
  m_month : option string;
  m_revenue : A;
  m_expense : A;
}.
Arguments MonthlyRow {A}.
Arguments m_month {A}.
Arguments m_revenue {A}.
Arguments m_expense {A}.

Section monthly.
Context {A : Type} `{Amount A}.

(** [df.groupby('الشهر')]: the distinct month cells, [NaN] left out, sorted. *)
Definition group_keys (rows : list (transaction A)) : list (cell A) :=
  merge_sort cell_le
    (remove_dups (filter (λ c, isna c = false) (map (λ r, cell_key (t_month r)) rows))).

(** [.agg({'ايراد': 'sum', 'مصروف': 'sum'}).reset_index()] *)
Definition groupby_month (rows : list (transaction A))
  : list (cell A * A * A) :=
  map (λ k,
         let group := filter (λ r, cell_key (t_month r) = k) rows in
         (k, column_sum t_revenue group, column_sum t_expense group))
      (group_keys rows).

(** [pd.Categorical(_, categories=month_order, ordered=True)] *)
Definition categorical (c : cell A) : option string :=
  match c with
  | Text s => if decide (s ∈ month_order) then Some s else None
  | _ => None
  end.

Definition category_code (s : string) : nat :=
  default 0 (fst <$> list_find (λ m, m = s) month_order).

(** The code a row is sorted by; [NaN] sorts after every category. *)
Definition row_code (r : monthly_row A) : nat :=
  match m_month r with
  | Some s => category_code s
  | None => length month_order
  end.

Definition code_le (r1 r2 : monthly_row A) : Prop := row_code r1 ≤ row_code r2.

#[export] Instance code_le_dec r1 r2 : Decision (code_le r1 r2).
Proof. unfold code_le. apply _. Defined.

(** [sort_values('الشهر')]: ascending category codes, [NaN] last and in the
    order they had. *)
Definition sort_values (rows : list (monthly_row A)) : list (monthly_row A) :=
  merge_sort code_le (filter (λ r, is_Some (m_month r)) rows) ++
  filter (λ r, m_month r = None) rows.

Definition monthly_data (rows : list (transaction A)) : list (monthly_row A) :=
  sort_values
    (map (λ '(k, revenue, expense), MonthlyRow (categorical k) revenue expense)
         (groupby_month rows)).

(** [monthly_data['صافي_الربح'] = monthly_data['ايراد'] - monthly_data['مصروف']] *)
Definition monthly_net_profit (r : monthly_row A) : A :=
  asub (m_revenue r) (m_expense r).
End monthly.

(** * The other pages and the script

    What the handlers below put on the page is their result; [screen] keeps
    the messages of the functions above. *)

Inductive notice : Type :=
| ErrLoadData                       (* st.error of load_saved_data *)
| ErrLoadFilesList                  (* st.error of load_files_list *)
| OkFileRemoved (file : string)     (* f"تم حذف {file_info['name']} من القائمة" *)
| OkManualDeleted (deleted : nat)   (* f"✅ تم حذف {deleted_count} عملية مضافة" *)
| OkAllDeleted (count : nat)        (* f"✅ تم حذف {count} عملية" *)
| InfoUploadAgain                   (* "الرجاء رفع ملف Excel جديد للبدء" *)
| OkListCleared                     (* "✅ تم مسح قائمة الملفات. ..." *)
| OkHistoryCleared.                 (* "✅ تم مسح السجل" *)

(** [pd.DataFrame(data)] of the list of records of a JSON array: no record,
    no column. *)
Definition DataFrame {A} (data : list (transaction A)) : frame A :=
  match data with
  | [] => Bare
  | _ :: _ => Table data
  end.

Definition load_saved_data {A} : App A (option (frame A) * list notice) :=
  λ w, match DATA_FILE w with
       | Json data => ((Some (DataFrame data), []), w)
       | Absent => ((None, []), w)
       | Garbled => ((None, [ErrLoadData]), w)
       end.

Definition load_files_list {A} : App A (list file_info * list notice) :=
  λ w, match FILES_LIST_FILE w with
       | Json files => ((files, []), w)
       | Absent => (([], []), w)
       | Garbled => (([], [ErrLoadFilesList]), w)
       end.

(** The two counts of the sidebar caption. *)
Definition manual_count {A} (df : list (transaction A)) : nat :=
  length (filter (λ r, addedManually r = true) df).

Definition original_count {A} (df : list (transaction A)) : nat :=
  length (filter (λ r, addedManually r = false) df).

(** [x > 0] on amounts. *)
Class AmountOrder (A : Type) `{Amount A} := {
  apos : A → bool;
}.

#[export] Instance Z_order : AmountOrder Z := {|
  apos := λ x, (0 <? x)%Z;
|}.

#[export] Instance float_order : AmountOrder float := {|
  apos := λ x, PrimFloat.ltb 0 x;
|}.

(** ** The data page: the three filters *)

Definition ALL : string := "الكل".

(** The third select box, over ['الكل', 'إيرادات', 'مصروفات']. *)
Inductive type_filter : Type :=
| AllTypes
| Revenues
| Expenses.

(** [column == selected] on one cell: [NaN] equals nothing. *)
Definition cell_equals {A} `{Amount A} (c selected : cell A) : bool :=
  negb (isna c) && bool_decide (cell_key c = cell_key selected).

Definition filtered_df {A} `{AmountOrder A} (selected_month selected_account : cell A)
    (selected_type : type_filter) (df : list (transaction A))
  : list (transaction A) :=
  let filtered := df in
  let filtered :=
    if decide (selected_month = Text ALL) then filtered
    else filter (λ r, cell_equals (t_month r) selected_month = true) filtered in
  let filtered :=
    if decide (selected_account = Text ALL) then filtered
    else filter (λ r, cell_equals (t_account r) selected_account = true) filtered in
  match selected_type with
  | Revenues => filter (λ r, apos (t_revenue r) = true) filtered
  | Expenses => filter (λ r, apos (t_expense r) = true) filtered
  | AllTypes => filtered
  end.

(** ** The two pie charts of [display_charts]

    [df[df[col] > 0].groupby('الحساب')[col].sum().sort_values(ascending=False)
    .head(10)].  The order [sort_values] gives to equal sums is that of
    numpy's sorting routine; the routine is a parameter. *)

Section charts.
Context {A : Type} `{AmountOrder A}.
Variable sort_values_descending : list (cell A * A) → list (cell A * A).

Definition account_keys (rows : list (transaction A)) : list (cell A) :=
  merge_sort cell_le
    (remove_dups (filter (λ c, isna c = false)
                    (map (λ r, cell_key (t_account r)) rows))).

Definition groupby_account_sum (col : transaction A → A)
    (rows : list (transaction A)) : list (cell A * A) :=
  map (λ k, (k, column_sum col
                  (filter (λ r, cell_key (t_account r) = k) rows)))
      (account_keys rows).

Definition top_categories (col : transaction A → A)
    (df : list (transaction A)) : list (cell A * A) :=
  take 10 (sort_values_descending
             (groupby_account_sum col (filter (λ r, apos (col r) = true) df))).

Definition expense_data (df : list (transaction A)) : list (cell A * A) :=
  top_categories t_expense df.

End charts.

(** ** The buttons *)

Inductive click (A : Type) : Type :=
| SubmitForm (f : form A)
| DeleteManual
| DeleteAll
| Reset
| ClearHistory
| RemoveDuplicates
| DeleteFile (idx : nat).
Arguments SubmitForm {A} f.
Arguments DeleteManual {A}.
Arguments DeleteAll {A}.
Arguments Reset {A}.
Arguments ClearHistory {A}.
Arguments RemoveDuplicates {A}.
Arguments DeleteFile {A} idx.

Section buttons.
Context {A : Type} `{Amount A}.
Variable to_numeric : cell A → option A.
Variable to_datetime : cell A → option Z.
Variable json_encodable : transaction A → bool.
Variable format_amount : A → string.

(** The button [delete_{idx}] of the sidebar: [loaded_files.pop(idx)]. *)
Definition delete_file_button (idx : nat) : App A (list notice) :=
  files ← get_loaded_files;
  match files !! idx with
  | None => mret []
  | Some file_info =>
    set_loaded_files (delete idx files);;
    files ← get_loaded_files;
    save_files_list files;;
    mret [OkFileRemoved (file_name file_info)]
  end.

(** The button ['🔄 حذف البيانات المضافة فقط'] of the export page. *)
Definition delete_manual_button : App A (list notice) :=
  old ← get_df;
  match old with
  | None => mret []
  | Some rows =>
    let before_count := length rows in
    let kept := filter (λ r, addedManually r = false) rows in
    set_df (Some kept);;
    let after_count := length kept in
    let deleted_count := before_count - after_count in
    history ← load_history;
    save_data json_encodable kept history;;
    add_to_history "حذف البيانات المضافة"
      ("تم حذف " +:+ pretty deleted_count +:+ " عملية مضافة يدوياً");;
    mret [OkManualDeleted deleted_count]
  end.

(** The button ['⚠️ حذف جميع البيانات']: [os.remove] of the data file and of
    the history file when they exist. *)
Definition delete_all_button : App A (list notice) :=
  old ← get_df;
  match old with
  | None => mret []
  | Some rows =>
    let count := length rows in
    set_df None;;
    write_data Absent;;
    write_history Absent;;
    mret [OkAllDeleted count; InfoUploadAgain]
  end.

(** The button ['🔄 إعادة تحميل'] of the file-management page. *)
Definition reset_button : App A (list notice) :=
  set_loaded_files [];;
  set_df None;;
  history ← load_history;
  save_data json_encodable [] history;;
  save_files_list [];;
  mret [OkListCleared].

(** The button ['🗑️ مسح السجل']. *)
Definition clear_history_button : App A (list notice) :=
  write_history (Json []);;
  mret [OkHistoryCleared].

(** One run of the script: the sidebar loop over the files held by the
    uploader, then the button that was pressed, if any.  A sidebar delete
    button exists for every registered file; the pages are reached only with
    a frame in the session ([st.stop()] otherwise), the buttons of the
    file-management page only with a non-empty registry, and the duplicate
    removal only when the scan has found rows.  Every button but the form's
    ends in [st.rerun()]: the script runs once more with nothing pressed. *)
Definition script (uploaded : list (uploaded_file A))
    (pressed : option (click A)) : App A (list notice) :=
  upload_files to_numeric to_datetime json_encodable uploaded;;
  let rerun := upload_files to_numeric to_datetime json_encodable uploaded in
  match pressed with
  | None => mret []
  | Some (DeleteFile idx) =>
    shown ← delete_file_button idx;
    match shown with
    | [] => mret []
    | _ :: _ => rerun;; mret shown
    end
  | Some pressed =>
    session_df ← get_df;
    files ← get_loaded_files;
    match session_df with
    | None => mret []
    | Some rows =>
      match pressed with
      | SubmitForm f =>
        submit_transaction json_encodable format_amount f;; mret []
      | DeleteManual => shown ← delete_manual_button; rerun;; mret shown
      | DeleteAll => shown ← delete_all_button; rerun;; mret shown
      | Reset =>
        match files with
        | [] => mret []
        | _ :: _ => shown ← reset_button; rerun;; mret shown
        end
      | ClearHistory =>
        match files with
        | [] => mret []
        | _ :: _ => shown ← clear_history_button; rerun;; mret shown
        end
      | RemoveDuplicates =>
        match files, duplicates rows with
        | _ :: _, _ :: _ =>
          remove_duplicates_button json_encodable;; rerun;; mret []
        | _, _ => mret []
        end
      | DeleteFile _ => mret []
      end
    end
  end.

(** A session: one run of the script per interaction. *)
Fixpoint session (runs : list (list (uploaded_file A) * option (click A)))
  : App A unit :=
  match runs with
  | [] => mret tt
  | (uploaded, pressed) :: rest => script uploaded pressed;; session rest
  end.
End buttons.

(** The rows the registry accounts for. *)
Definition registered_rows (files : list file_info) : nat :=
  foldr (λ file total, file_rows file + total) 0 files.

(** The registry file holds what the session holds. *)
Definition registry_saved {A} (w : world A) : Prop :=
  (load_files_list w).1.1 = loaded_files w.

(** The data file holds the rows of the session's frame, or is unreadable
    when [json.dump] cannot write them. *)
Definition data_saved {A} (json_encodable : transaction A → bool)
    (w : world A) : Prop :=
  ∀ rows, df w = Some rows →
    DATA_FILE w = if forallb json_encodable rows then Json rows else Garbled.

(** Two states that differ at most by what is on the page. *)
Definition same_state {A} (w w' : world A) : Prop :=
  df w = df w' ∧ loaded_files w = loaded_files w' ∧
  DATA_FILE w = DATA_FILE w' ∧ HISTORY_FILE w = HISTORY_FILE w' ∧
  FILES_LIST_FILE w = FILES_LIST_FILE w' ∧
  clock w = clock w' ∧ ticks w = ticks w'.

(** The audit log, as [load_history] reads it, has at most 100 entries. *)
Definition log_capped {A} (w : world A) : Prop :=
  length (load_history w).1 ≤ 100.

(** * Sample data for the examples *)

Definition float_row (revenue : float) : transaction float :=
  Transaction (Some 0%Z) Blank Blank Blank Blank Blank 0%float revenue "" "" false.

Definition Z_row (date : Z) (month account : string) (expense revenue : Z)
  : transaction Z :=
  Transaction (Some date) (Text month) (Text account) Blank Blank Blank
              expense revenue "" "" false.

Definition blank_world {A} : world A :=
  World None [] Absent Absent Absent [] (λ _, "") 0.

Definition sample_to_numeric (c : cell Z) : option Z :=
  match c with Num x => Some x | _ => None end.

Definition sample_to_datetime (c : cell Z) : option Z :=
  match c with Date t => Some t | _ => None end.

Definition sample_row : list (cell Z) :=
  [Date 20250101%Z; Text "يناير"; Text "بنك"; Text "abc"; Num 500%Z].

(** Workbooks: the labels in the first row and again in the second (the one
    layout [load_excel_file] reads), the labels in the first row only, and
    the labels below a title row. *)
Definition title_row {A} : list (cell A) := [Text "تقرير الإيرادات والمصروفات"].

Definition labels_row {A} : list (cell A) :=
  [Text COL_DATE; Text COL_MONTH; Text COL_ACCOUNT; Text COL_EXPENSE;
   Text COL_REVENUE].

Definition data_row {A} `{Amount A} : list (cell A) :=
  [Date 20250101%Z; Text "يناير"; Text "بنك"; Text "abc"; Num azero].

Definition workbook_repeated_labels : uploaded_file Z :=
  UploadedFile "a.xlsx" (Some [labels_row; labels_row; sample_row]).

Definition workbook_labels_first : uploaded_file Z :=
  UploadedFile "b.xlsx" (Some [labels_row; sample_row]).

Definition workbook_titled : uploaded_file Z :=
  UploadedFile "c.xlsx" (Some [title_row; labels_row; sample_row]).

Definition never_encodable (r : transaction Z) : bool := false.

Definition sample_format (x : Z) : string := pretty x +:+ ".00".

Definition sample_form (who : string) (x : Z) : form Z :=
  Form who 20250101%Z "يناير" "بنك" "نقدي" "إيجار" "" Expense x.

(** A world whose clock reads 0, 1, 2, ... *)
Definition counting_world {A} : world A :=
  World None [] Absent Absent Absent [] pretty 0.

(** A world in which [workbook_repeated_labels] has been loaded. *)
Definition loaded_world : world Z :=
  (upload_one sample_to_numeric sample_to_datetime never_encodable
     workbook_repeated_labels blank_world).2.

(** A world whose log is full. *)
Definition full_log_world : world Z :=
  World None [] Absent (Json (replicate 100 (AuditEntry "" "حدث" ""))) Absent
        [] pretty 0.

(** A ledger of one imported row and one manual entry. *)
Definition manual_world : world Z :=
  World (Some [Z_row 20250101 "يناير" "بنك" 0 500;
               new_transaction (sample_form "سالم" 250) "0"])
        [] Absent Absent Absent [] pretty 0.

(** A session: a workbook is uploaded, an entry is added, the manual
    entries are deleted, the workbook is taken off the list while the
    uploader still holds it, and the list is reset. *)
Definition sample_runs : list (list (uploaded_file Z) * option (click Z)) :=
  [([workbook_repeated_labels], None);
   ([workbook_repeated_labels], Some (SubmitForm (sample_form "سالم" 250)));
   ([workbook_repeated_labels], Some DeleteManual);
   ([workbook_repeated_labels], Some (DeleteFile 0));
   ([workbook_repeated_labels; workbook_titled], Some RemoveDuplicates);
   ([], Some Reset)].

(** A row without a month. *)
Definition unlabelled_row (revenue : Z) : transaction Z :=
  Transaction (Some 20250201%Z) Blank (Text "بنك") Blank Blank Blank 0%Z
              revenue "" "" false.

(** A descending sort of the totals of the accounts. *)
Definition sum_ge (x y : cell Z * Z) : Prop := aleb y.2 x.2 = true.

#[export] Instance sum_ge_dec x y : Decision (sum_ge x y).
Proof. unfold sum_ge. apply _. Defined.



(** A registered workbook whose three rows share their key. *)
Definition duplicated_world : world Z :=
  World (Some [Z_row 20250101 "يناير" "Bank" 0 500;
               Z_row 20250101 "فبراير" "Bank" 0 500;
               Z_row 20250101 "مارس" "Bank" 0 500])
        [FileInfo "a.xlsx" 3 "0"] Absent Absent Absent [] pretty 0.

(** * Auxiliary predicates *)

(** The audit log file holds a list of at most 100 entries. *)
Definition capped {A} (w : world A) : Prop :=
  ∃ history, HISTORY_FILE w = Json history ∧ length history ≤ 100.

(** The names under which files are registered in the session. *)
Definition registered {A} (w : world A) : list string :=
  map file_name (loaded_files w).

(** The sort code of a month category, [NaN] last, and the order it gives. *)
Definition option_code (o : option string) : nat :=
  match o with
  | Some s => category_code s
  | None => length month_order
  end.

Definition option_code_le (o1 o2 : option string) : Prop :=
  option_code o1 ≤ option_code o2.

(** The audit log as [load_history] returns it. *)
Definition log_of {A} (w : world A) : list audit_entry :=
  match HISTORY_FILE w with
  | Json history => history
  | Absent | Garbled => []
  end.

(** The sum of the amounts of a chart. *)
Definition total {A} `{Amount A} (l : list A) : A := foldr aadd azero l.

(** Whether a row passes the three selections of the data page. *)
Definition shown_row {A} `{AmountOrder A} (m a : cell A) (t : type_filter)
    (r : transaction A) : bool :=
  (bool_decide (m = Text ALL) || cell_equals (t_month r) m) &&
  (bool_decide (a = Text ALL) || cell_equals (t_account r) a) &&
  match t with
  | AllTypes => true
  | Revenues => apos (t_revenue r)
  | Expenses => apos (t_expense r)
  end.

(** The rows of the session's frame, none when there is no frame. *)
Definition ledger {A} (w : world A) : list (transaction A) :=
  default [] (df w).

(** [save_data(data, load_history())], as every caller writes it. *)
Definition persist {A} (json_encodable : transaction A → bool)
    (data : list (transaction A)) : App A bool :=
  history ← load_history;
  save_data json_encodable data history.

(** Unfolds the handlers down to functions on the [world]. *)
Ltac unfold_handlers :=
  unfold submit_transaction, remove_duplicates_button, delete_manual_button,
    delete_all_button, reset_button, clear_history_button, delete_file_button,
    save_data, save_files_list, add_to_history, load_history, load_saved_data,
    load_files_list, read_history, get_df, set_df, get_loaded_files,
    set_loaded_files, write_data, write_history, write_files_list, show, now,
    mbind, App_bind, mret, App_ret in *.

(** What [load_excel_file] shows for a failure. *)
Definition load_error_message (e : load_error) : message :=
  match e with
  | HeaderNotFound => ErrHeaderNotFound
  | ReadFailed e => ErrReadFile e
  end.

(** * Properties of the duplicate scan *)

Section pandas_duplicates_facts.
Context {R K : Type} `{EqDecision K} (key : R → K).

Lemma boolean_index_map (f : R → bool) (l : list R) :
  boolean_index l (map f l) = filter (λ r, f r = true) l.
Proof.
  induction l as [|r l IH]; [done|]. simpl.
  rewrite filter_cons, IH. case_decide as Hf; destruct (f r); done.
Qed.

Lemma drop_duplicates_seen (seen : list K) (l : list R) :
  boolean_index l (map negb (duplicated_seen key seen l)) = keep_unseen key seen l.
Proof.
  revert seen. induction l as [|r l IH]; intros seen; [done|]. simpl.
  destruct (decide (key r ∈ seen)) as [Hin|Hin]; simpl; [apply IH|].
  by rewrite IH.
Qed.

Lemma drop_duplicates_keep_unseen (l : list R) :
  drop_duplicates key l = keep_unseen key [] l.
Proof. apply drop_duplicates_seen. Qed.

Lemma keep_unseen_idempotent (seen : list K) (l : list R) :
  keep_unseen key seen (keep_unseen key seen l) = keep_unseen key seen l.
Proof.
  revert seen. induction l as [|r l IH]; intros seen; [done|]. simpl.
  destruct (decide (key r ∈ seen)) as [Hin|Hin]; [apply IH|].
  simpl. rewrite decide_False by done. by rewrite IH.
Qed.

Lemma keep_unseen_sublist (seen : list K) (l : list R) :
  keep_unseen key seen l `sublist_of` l.
Proof.
  revert seen. induction l as [|r l IH]; intros seen; [done|]. simpl.
  destruct (decide (key r ∈ seen)).
  - by apply sublist_cons.
  - by apply sublist_skip.
Qed.

Lemma keep_unseen_keys (seen : list K) (l : list R) (r : R) :
  r ∈ keep_unseen key seen l → key r ∉ seen.
Proof.
  revert seen. induction l as [|x l IH]; intros seen; simpl.
  - by intros ?%not_elem_of_nil.
  - destruct (decide (key x ∈ seen)) as [Hin|Hin]; [apply IH|].
    intros [->|Hr]%elem_of_cons; [done|].
    apply IH in Hr. by apply not_elem_of_cons in Hr as [_ ?].
Qed.

Lemma keep_unseen_NoDup (seen : list K) (l : list R) :
  NoDup (map key (keep_unseen key seen l)).
Proof.
  revert seen. induction l as [|x l IH]; intros seen; simpl; [constructor|].
  destruct (decide (key x ∈ seen)) as [Hin|Hin]; [apply IH|].
  simpl. constructor; [|apply IH].
  intros (r & Hk & Hr)%list_elem_of_fmap.
  apply keep_unseen_keys in Hr. apply Hr. rewrite <- Hk. by left.
Qed.

Lemma keep_unseen_covers (seen : list K) (l : list R) (r : R) :
  r ∈ l → key r ∉ seen → key r ∈ map key (keep_unseen key seen l).
Proof.
  revert seen. induction l as [|x l IH]; intros seen; simpl.
  - by intros ?%not_elem_of_nil.
  - intros Hr Hseen. destruct (decide (key x ∈ seen)) as [Hin|Hin].
    + apply elem_of_cons in Hr as [->|Hr]; [done|]. by apply IH.
    + simpl. destruct (decide (key r = key x)) as [->|Hne]; [by left|].
      right. apply elem_of_cons in Hr as [->|Hr]; [done|].
      apply IH; [done|]. by apply not_elem_of_cons.
Qed.

(** The flag of [keep='first'] at a position: set exactly when the key was
    seen before the scan or stands in a row higher up. *)
Lemma duplicated_seen_lookup (seen : list K) (l : list R) (i : nat) (r : R) :
  l !! i = Some r →
  ∃ b, duplicated_seen key seen l !! i = Some b ∧
       (b = true ↔
        key r ∈ seen ∨ ∃ j r', j < i ∧ l !! j = Some r' ∧ key r' = key r).
Proof.
  revert seen i. induction l as [|x l IH]; intros seen i; [done|].
  simpl. destruct (decide (key x ∈ seen)) as [Hx|Hx]; destruct i as [|i]; simpl.
  - intros [= ->]. exists true. split; [done|]. split; [by left|done].
  - intros Hr. destruct (IH seen _ Hr) as (b & Hb & Hiff).
    exists b. split; [done|]. rewrite Hiff. split.
    + intros [Hin|(j & r' & Hj & Hl & Hk)]; [by left|].
      right. exists (S j), r'. split; [lia|]. done.
    + intros [Hin|(j & r' & Hj & Hl & Hk)]; [by left|].
      destruct j as [|j]; simpl in Hl.
      * injection Hl as ->. left. by rewrite <- Hk.
      * right. exists j, r'. split; [lia|]. done.
  - intros [= ->]. exists false. split; [done|]. split; [done|].
    intros [?|(j & ? & ? & _)]; [done|lia].
  - intros Hr. destruct (IH (key x :: seen) _ Hr) as (b & Hb & Hiff).
    exists b. split; [done|]. rewrite Hiff. split.
    + intros [[Hk|Hin]%elem_of_cons|(j & r' & Hj & Hl & Hk)].
      * right. exists 0, x. split; [lia|]. by rewrite Hk.
      * by left.
      * right. exists (S j), r'. split; [lia|]. done.
    + intros [Hin|(j & r' & Hj & Hl & Hk)].
      * left. by right.
      * destruct j as [|j]; simpl in Hl.
        -- injection Hl as ->. left. rewrite <- Hk. by left.
        -- right. exists j, r'. split; [lia|]. done.
Qed.

Lemma occurrences_app (k : K) (l1 l2 : list R) :
  occurrences key k (l1 ++ l2) = occurrences key k l1 + occurrences key k l2.
Proof. unfold occurrences. by rewrite filter_app, length_app. Qed.

Lemma occurrences_cons (k : K) (r : R) (l : list R) :
  occurrences key k (r :: l) =
    (if decide (key r = k) then 1 else 0) + occurrences key k l.
Proof. unfold occurrences. rewrite filter_cons. by destruct (decide _). Qed.

Lemma occurrences_pos (k : K) (l : list R) :
  0 < occurrences key k l ↔ ∃ j r, l !! j = Some r ∧ key r = k.
Proof.
  unfold occurrences. split.
  - destruct (filter _ l) as [|r l'] eqn:E; simpl; [lia|]. intros _.
    assert (r ∈ filter (λ r, key r = k) l) as Hr by (rewrite E; by left).
    apply list_elem_of_filter in Hr as [Hk Hr].
    apply list_elem_of_lookup in Hr as [j Hj]. eauto.
  - intros (j & r & Hj & Hk).
    assert (r ∈ filter (λ r, key r = k) l) as Hr.
    { apply list_elem_of_filter. split; [done|]. by eapply list_elem_of_lookup_2. }
    destruct (filter _ l); simpl; [by apply not_elem_of_nil in Hr|lia].
Qed.

(** A key occurs more than once exactly when, for each row carrying it,
    another row carries it too. *)
Lemma occurrences_other (l : list R) (i : nat) (r : R) :
  l !! i = Some r →
  1 < occurrences key (key r) l ↔
  ∃ j r', j ≠ i ∧ l !! j = Some r' ∧ key r' = key r.
Proof.
  intros Hi. pose proof (lookup_lt_Some _ _ _ Hi) as Hlen.
  rewrite <- (take_drop_middle l i r Hi) at 1.
  rewrite occurrences_app, occurrences_cons, decide_True by done.
  split.
  - intros Hocc.
    destruct (decide (0 < occurrences key (key r) (take i l))) as [Hl|Hl].
    + apply occurrences_pos in Hl as (j & r' & Hj & Hk).
      apply lookup_take_Some in Hj as [Hj Hlt].
      exists j, r'. split; [lia|done].
    + assert (0 < occurrences key (key r) (drop (S i) l)) as Hr by lia.
      apply occurrences_pos in Hr as (j & r' & Hj & Hk).
      rewrite lookup_drop in Hj.
      exists (S i + j), r'. split; [lia|done].
  - intros (j & r' & Hne & Hj & Hk).
    destruct (decide (j < i)) as [Hlt|Hge].
    + assert (0 < occurrences key (key r) (take i l)); [|lia].
      apply occurrences_pos. exists j, r'. split; [|done].
      by rewrite lookup_take_lt.
    + assert (0 < occurrences key (key r) (drop (S i) l)); [|lia].
      apply occurrences_pos. exists (j - S i), r'. split; [|done].
      rewrite lookup_drop. replace (S i + (j - S i)) with j by lia. done.
Qed.

Lemma filter_length_mono (P Q : R → Prop) `{∀ x, Decision (P x)}
    `{∀ x, Decision (Q x)} (l : list R) :
  (∀ x, x ∈ l → P x → Q x) → length (filter P l) ≤ length (filter Q l).
Proof.
  induction l as [|x l IH]; intros HPQ; [done|].
  rewrite !filter_cons.
  assert (length (filter P l) ≤ length (filter Q l)) as Hle.
  { apply IH. intros y Hy. apply HPQ. by right. }
  destruct (decide (P x)) as [HP|HP].
  - rewrite decide_True by (apply HPQ; [by left|done]). simpl. lia.
  - destruct (decide (Q x)); simpl; lia.
Qed.

Lemma keep_unseen_length (seen : list K) (l : list R) :
  length l ≤
    length (keep_unseen key seen l) +
    length (filter (λ r, key r ∈ seen ∨ 1 < occurrences key (key r) l) l).
Proof.
  revert seen. induction l as [|r l IH]; intros seen; [done|]. simpl.
  rewrite filter_cons.
  destruct (decide (key r ∈ seen)) as [Hin|Hin].
  - rewrite decide_True by (by left). simpl.
    specialize (IH seen).
    assert (length (filter (λ x, key x ∈ seen ∨ 1 < occurrences key (key x) l) l)
            ≤ length (filter (λ x, key x ∈ seen ∨
                                   1 < occurrences key (key x) (r :: l)) l)).
    { apply filter_length_mono. intros x _ [?|Hocc]; [by left|right].
      rewrite occurrences_cons. lia. }
    lia.
  - specialize (IH (key r :: seen)). simpl.
    assert (length (filter (λ x, key x ∈ key r :: seen ∨
                                 1 < occurrences key (key x) l) l)
            ≤ length (filter (λ x, key x ∈ seen ∨
                                   1 < occurrences key (key x) (r :: l)) l)).
    { apply filter_length_mono. intros x Hx [[Hk|?]%elem_of_cons|Hocc].
      - right. rewrite occurrences_cons, decide_True by done.
        assert (0 < occurrences key (key x) l); [|lia].
        apply occurrences_pos. apply list_elem_of_lookup in Hx as [j Hj]. eauto.
      - by left.
      - right. rewrite occurrences_cons. lia. }
    destruct (decide (key r ∈ seen ∨ 1 < occurrences key (key r) (r :: l)));
      simpl; lia.
Qed.

Lemma occurrences_zero (k : K) (l : list R) :
  k ∉ map key l → occurrences key k l = 0.
Proof.
  intros Hk. destruct (decide (0 < occurrences key k l)) as [Hpos|]; [|lia].
  apply occurrences_pos in Hpos as (j & r & Hj & <-). destruct Hk.
  change (map ?f ?l) with (f <$> l).
  apply list_elem_of_fmap_2. by eapply list_elem_of_lookup_2.
Qed.

(** No key is carried twice exactly when no key occurs more than once. *)
Lemma occurrences_NoDup (l : list R) :
  NoDup (map key l) ↔ ∀ r, r ∈ l → occurrences key (key r) l ≤ 1.
Proof.
  induction l as [|x l IH]; simpl.
  - split; [by intros _ r ?%not_elem_of_nil|constructor].
  - rewrite NoDup_cons, IH. split.
    + intros [Hx Hl] r Hr. rewrite occurrences_cons.
      destruct (decide (key x = key r)) as [Hk|Hk].
      * rewrite <- Hk, occurrences_zero by done. lia.
      * apply elem_of_cons in Hr as [->|Hr]; [done|]. by apply Hl.
    + intros Hocc. split.
      * intros Hx. specialize (Hocc x (ltac:(by left))).
        rewrite occurrences_cons, decide_True in Hocc by done.
        assert (0 < occurrences key (key x) l); [|lia].
        change (map ?f ?l) with (f <$> l) in Hx.
        apply list_elem_of_fmap in Hx as (r & Hk & Hr).
        apply list_elem_of_lookup in Hr as [j Hj].
        apply occurrences_pos. by exists j, r.
      * intros r Hr. specialize (Hocc r (ltac:(by right))).
        rewrite occurrences_cons in Hocc. lia.
Qed.

Lemma keep_unseen_NoDup_id (seen : list K) (l : list R) :
  NoDup (map key l) → (∀ r, r ∈ l → key r ∉ seen) →
  keep_unseen key seen l = l.
Proof.
  revert seen. induction l as [|x l IH]; intros seen Hnodup Hseen; [done|].
  simpl in *. apply NoDup_cons in Hnodup as [Hx Hl].
  rewrite decide_False by (apply Hseen; by left).
  f_equal. apply IH; [done|].
  intros r Hr [Hk|Hin]%elem_of_cons.
  - apply Hx. rewrite <- Hk. change (map ?f ?l) with (f <$> l).
    by apply list_elem_of_fmap_2.
  - apply (Hseen r); [by right|done].
Qed.

Lemma keep_unseen_shorter (seen : list K) (l : list R) :
  keep_unseen key seen l = l ∨ length (keep_unseen key seen l) < length l.
Proof.
  revert seen. induction l as [|x l IH]; intros seen; [by left|]. simpl.
  destruct (decide (key x ∈ seen)).
  - right. pose proof (sublist_length _ _ (keep_unseen_sublist seen l)). lia.
  - destruct (IH (key x :: seen)) as [->|Hlt]; [by left|]. right. simpl. lia.
Qed.

Lemma filter_nil_iff (P : R → Prop) `{∀ x, Decision (P x)} (l : list R) :
  filter P l = [] ↔ ∀ r, r ∈ l → ¬ P r.
Proof.
  split.
  - intros Hnil r Hr HP. by apply (filter_nil_not_elem_of P l r).
  - intros Hnone. induction l as [|x l IH]; [done|].
    rewrite filter_cons, decide_False by (apply Hnone; by left).
    apply IH. intros r Hr. apply Hnone. by right.
Qed.
End pandas_duplicates_facts.

Section ledger_duplicates.
Context {A : Type} `{Amount A}.
Variable json_encodable : transaction A → bool.

Lemma duplicates_filter (df : list (transaction A)) :
  duplicates df =
  filter (λ r, 1 < occurrences duplicate_cols (duplicate_cols r) df) df.
Proof.
  unfold duplicates, duplicated_keep_false. rewrite boolean_index_map.
  apply list_filter_iff. intros r. apply bool_decide_eq_true.
Qed.

Lemma remove_duplicates_keep_unseen (df : list (transaction A)) :
  remove_duplicates df = keep_unseen duplicate_cols [] df.
Proof. apply drop_duplicates_keep_unseen. Qed.

(** C1: the duplicate scan returns, in ledger order, exactly the rows whose
    composite key (date, account, expense, revenue) is carried by another
    row as well, so every member of a collision group; the removal drops a
    row exactly when a row higher up carries its key, so it keeps the first
    row of every group, in ledger order, one row per key and every key; and
    the scan returns at least as many rows as the removal drops. *)
Theorem duplicate_scan_and_removal (df : list (transaction A)) :
  duplicates df =
    filter (λ r, 1 < occurrences duplicate_cols (duplicate_cols r) df) df ∧
  (∀ i r, df !! i = Some r →
     1 < occurrences duplicate_cols (duplicate_cols r) df ↔
     ∃ j r', j ≠ i ∧ df !! j = Some r' ∧ duplicate_cols r' = duplicate_cols r) ∧
  remove_duplicates df =
    boolean_index df (map negb (duplicated_keep_first duplicate_cols df)) ∧
  (∀ i r, df !! i = Some r →
     ∃ dropped, duplicated_keep_first duplicate_cols df !! i = Some dropped ∧
       (dropped = true ↔
        ∃ j r', j < i ∧ df !! j = Some r' ∧
                duplicate_cols r' = duplicate_cols r)) ∧
  remove_duplicates df `sublist_of` df ∧
  NoDup (map duplicate_cols (remove_duplicates df)) ∧
  (∀ r, r ∈ df →
     duplicate_cols r ∈ map duplicate_cols (remove_duplicates df)) ∧
  length df - length (remove_duplicates df) ≤ length (duplicates df).
Proof.
  repeat split.
  - apply duplicates_filter.
  - by apply occurrences_other.
  - by apply occurrences_other.
  - intros i r Hi.
    destruct (duplicated_seen_lookup duplicate_cols [] df i r Hi)
      as (b & Hb & Hiff).
    exists b. split; [done|]. rewrite Hiff. split; [|by right].
    intros [Hin|?]; [by apply not_elem_of_nil in Hin|done].
  - rewrite remove_duplicates_keep_unseen. apply keep_unseen_sublist.
  - rewrite remove_duplicates_keep_unseen. apply keep_unseen_NoDup.
  - intros r Hr. rewrite remove_duplicates_keep_unseen.
    apply keep_unseen_covers; [done|]. apply not_elem_of_nil.
  - rewrite remove_duplicates_keep_unseen, duplicates_filter.
    pose proof (keep_unseen_length duplicate_cols [] df) as Hlen.
    assert (length (filter (λ r, duplicate_cols r ∈ [] ∨
               1 < occurrences duplicate_cols (duplicate_cols r) df) df)
            ≤ length (filter (λ r,
               1 < occurrences duplicate_cols (duplicate_cols r) df) df)).
    { apply filter_length_mono. intros x _ [Hin|?]; [|done].
      by apply not_elem_of_nil in Hin. }
    lia.
Qed.

Lemma remove_duplicates_twice (df : list (transaction A)) :
  remove_duplicates (remove_duplicates df) = remove_duplicates df.
Proof. rewrite !remove_duplicates_keep_unseen. apply keep_unseen_idempotent. Qed.

Lemma remove_duplicates_button_rows (rows : list (transaction A))
    (w : world A) :
  df w = Some rows →
  df (remove_duplicates_button json_encodable w).2 =
    Some (remove_duplicates rows) ∧
  last (screen (remove_duplicates_button json_encodable w).2) =
    Some (OkDuplicatesRemoved (length rows - length (remove_duplicates rows))).
Proof.
  intros Hdf.
  unfold remove_duplicates_button, get_df, save_data, add_to_history,
    load_history, read_history, mbind, App_bind, mret, App_ret.
  rewrite Hdf. simpl.
  destruct (HISTORY_FILE w); destruct (forallb json_encodable _); simpl;
    by rewrite last_snoc.
Qed.

(** C6: removing duplicates from a ledger that has just been through the
    removal returns the same ledger, and so removes zero rows; pressing the
    removal button a second time leaves the ledger of the session as the
    first press left it and reports zero rows removed. *)
Theorem remove_duplicates_idempotent (rows : list (transaction A))
    (w : world A) :
  remove_duplicates (remove_duplicates rows) = remove_duplicates rows ∧
  length (remove_duplicates rows) -
    length (remove_duplicates (remove_duplicates rows)) = 0 ∧
  df (remove_duplicates_button json_encodable
        (remove_duplicates_button json_encodable w).2).2 =
    df (remove_duplicates_button json_encodable w).2 ∧
  (is_Some (df w) →
   last (screen (remove_duplicates_button json_encodable
                   (remove_duplicates_button json_encodable w).2).2) =
     Some (OkDuplicatesRemoved 0)).
Proof.
  split; [apply remove_duplicates_twice|].
  split; [rewrite remove_duplicates_twice; lia|].
  destruct (df w) as [old|] eqn:Hdf.
  - destruct (remove_duplicates_button_rows old w Hdf) as [Hfirst _].
    destruct (remove_duplicates_button_rows _ _ Hfirst) as [Hsecond Hshown].
    rewrite remove_duplicates_twice in Hsecond, Hshown.
    split; [by rewrite Hsecond, Hfirst|]. intros _.
    rewrite Hshown. do 2 f_equal. lia.
  - assert (remove_duplicates_button json_encodable w = (tt, w)) as Hstop.
    { unfold remove_duplicates_button, get_df, mbind, App_bind.
      by rewrite Hdf. }
    rewrite !Hstop. cbn [snd]. rewrite Hstop. split; [done|].
    by intros [? [=]].
Qed.
Lemma duplicates_nil_NoDup (df : list (transaction A)) :
  duplicates df = [] ↔ NoDup (map duplicate_cols df).
Proof.
  rewrite duplicates_filter, filter_nil_iff, occurrences_NoDup.
  split; intros Hocc r Hr; specialize (Hocc r Hr); lia.
Qed.

(** X11: the scan reports nothing exactly when the removal would change
    nothing; after a removal the scan reports nothing; and whenever the
    scan reports a row (the only case in which the page offers the removal
    button) the removal makes the ledger strictly shorter. *)
Theorem duplicate_scan_empty_iff (df : list (transaction A)) :
  (duplicates df = [] ↔ remove_duplicates df = df) ∧
  duplicates (remove_duplicates df) = [] ∧
  (duplicates df ≠ [] → length (remove_duplicates df) < length df).
Proof.
  assert (duplicates df = [] ↔ remove_duplicates df = df) as Hiff.
  { rewrite duplicates_nil_NoDup, remove_duplicates_keep_unseen. split.
    - intros Hnodup. apply keep_unseen_NoDup_id; [done|].
      intros r _. apply not_elem_of_nil.
    - intros <-. apply keep_unseen_NoDup. }
  split; [done|]. split.
  - apply duplicates_nil_NoDup. rewrite remove_duplicates_keep_unseen.
    apply keep_unseen_NoDup.
  - intros Hsome.
    destruct (keep_unseen_shorter duplicate_cols [] df) as [Hsame|Hlt].
    + destruct Hsome. apply Hiff. by rewrite remove_duplicates_keep_unseen.
    + by rewrite remove_duplicates_keep_unseen.
Qed.
End ledger_duplicates.

(** * Properties of the summary statistics *)

Section statistics_facts.
Context {A : Type} `{Amount A}.

Lemma column_sum_app (col : transaction A → A) (x y : list (transaction A)) :
  column_sum col (x ++ y) =
  fold_left (λ acc r, aadd acc (col r)) y (column_sum col x).
Proof. unfold column_sum. apply fold_left_app. Qed.

Lemma column_sum_from `{!ExactAmount A} (col : transaction A → A)
    (y : list (transaction A)) (acc : A) :
  fold_left (λ acc r, aadd acc (col r)) y acc = aadd acc (column_sum col y).
Proof.
  unfold column_sum. revert acc.
  induction y as [|r y IH]; intros acc; simpl.
  - by rewrite aadd_zero_r.
  - rewrite (IH (aadd acc (col r))), (IH (aadd azero (col r))).
    by rewrite aadd_zero_l, aadd_assoc.
Qed.

Lemma column_sum_additive `{!ExactAmount A} (col : transaction A → A)
    (x y : list (transaction A)) :
  column_sum col (x ++ y) = aadd (column_sum col x) (column_sum col y).
Proof. by rewrite column_sum_app, column_sum_from. Qed.

(** C2 (as amended): on a frame with no rows, with or without columns, every
    field of the summary is zero; the net profit of any frame is its total
    revenue minus its total expense; the number of transactions of a
    concatenation is the sum of the two numbers; and when amounts add up
    exactly (associative addition with neutral zero, subtraction
    distributing over it, as for integers) the summary of a concatenation
    is the field by field sum of the two summaries. *)
Theorem calculate_statistics_additive (a b : frame A) (w : world A) :
  let stats df := (calculate_statistics df w).1 in
  stats Bare = Statistics azero azero azero 0 ∧
  stats (Table []) = Statistics azero azero azero 0 ∧
  net_profit (stats a) = asub (total_revenue (stats a)) (total_expense (stats a)) ∧
  total_transactions (stats (frame_concat a b)) =
    total_transactions (stats a) + total_transactions (stats b) ∧
  (ExactAmount A →
   stats (frame_concat a b) = statistics_add (stats a) (stats b)).
Proof.
  simpl. split; [|split; [|split; [|split]]].
  - done.
  - unfold column_sum. simpl. by rewrite asub_zero.
  - destruct a; simpl; [by rewrite asub_zero|done].
  - destruct a, b; simpl; rewrite ?length_app; lia.
  - intros Hexact. destruct a as [|x], b as [|y]; simpl; unfold statistics_add; simpl.
    + by rewrite !aadd_zero_l.
    + by rewrite !aadd_zero_l.
    + by rewrite !aadd_zero_r, Nat.add_0_r.
    + rewrite !column_sum_additive, length_app. f_equal. apply asub_aadd.
Qed.
End statistics_facts.

(** C2 (counterexample): with binary64 amounts, the revenues 0.1, 0.2, 0.2
    and 0.7 total 1.2 down the column, while 0.1 plus the total
    1.1 of the last three is 1.2000000000000002. *)
Lemma calculate_statistics_float_not_additive :
  (calculate_statistics
     (frame_concat (Table [float_row 0.1])
                   (Table [float_row 0.2; float_row 0.2; float_row 0.7]))
     blank_world).1 ≠
  statistics_add
    (calculate_statistics (Table [float_row 0.1]) blank_world).1
    (calculate_statistics
       (Table [float_row 0.2; float_row 0.2; float_row 0.7]) blank_world).1.
Proof.
  intros Heq. apply (f_equal total_revenue) in Heq.
  apply FloatAxioms.Leibniz.eqb_spec in Heq. vm_compute in Heq. discriminate.
Qed.

(** C2 (witness): integer amounts. *)
Lemma calculate_statistics_additive_witness :
  (calculate_statistics
     (frame_concat (Table [Z_row 1 "يناير" "بنك" 10 0; Z_row 2 "يناير" "بنك" 0 500])
                   (Table [Z_row 3 "مارس" "نقد" 0 70]))
     blank_world).1 = Statistics 570%Z 10%Z 560%Z 3 ∧
  (calculate_statistics
     (frame_concat (Table [Z_row 1 "يناير" "بنك" 10 0; Z_row 2 "يناير" "بنك" 0 500])
                   (Table [Z_row 3 "مارس" "نقد" 0 70]))
     blank_world).1 =
  statistics_add
    (calculate_statistics
       (Table [Z_row 1 "يناير" "بنك" 10 0; Z_row 2 "يناير" "بنك" 0 500])
       blank_world).1
    (calculate_statistics (Table [Z_row 3 "مارس" "نقد" 0 70]) blank_world).1.
Proof.
  split; [reflexivity|].
  apply (calculate_statistics_additive
           (Table [Z_row 1 "يناير" "بنك" 10 0; Z_row 2 "يناير" "بنك" 0 500])
           (Table [Z_row 3 "مارس" "نقد" 0 70]) blank_world).
  apply Z_exact.
Defined.

(** * Properties of the audit log *)

Section history_facts.
Context {A : Type}.

Lemma add_to_history_file (action details : string) (w : world A) :
  (add_to_history action details w).1 = true ∧
  HISTORY_FILE (add_to_history action details w).2 =
    Json (AuditEntry (clock w (ticks w)) action details ::
          take 99 (load_history w).1).
Proof.
  unfold add_to_history, load_history, read_history, mbind, App_bind, mret,
    App_ret. simpl.
  destruct (HISTORY_FILE w); simpl; done.
Qed.

Lemma add_to_history_capped (action details : string) (w : world A) :
  capped (add_to_history action details w).2.
Proof.
  destruct (add_to_history_file action details w) as [_ Hfile].
  eexists. split; [apply Hfile|]. simpl. rewrite length_take. lia.
Qed.

Lemma add_all_to_history_capped (calls : list (string * string)) (w : world A) :
  capped w → capped (add_all_to_history calls w).2.
Proof.
  revert w. induction calls as [|[action details] calls IH]; intros w Hw; [done|].
  simpl. unfold mbind, App_bind.
  destruct (add_to_history action details w) as [b w'] eqn:E.
  apply IH. replace w' with (add_to_history action details w).2 by (by rewrite E).
  apply add_to_history_capped.
Qed.

Lemma capped_load_history (w : world A) :
  capped w → length (load_history w).1 ≤ 100.
Proof.
  intros (history & Hfile & Hlen).
  unfold load_history, read_history, mbind, App_bind. simpl. by rewrite Hfile.
Qed.

(** C3: a call of [add_to_history] succeeds and writes the new entry, stamped
    with the current time, in front of the first 99 entries of the log it
    read, so the entry that was 100th, the oldest, is dropped; and after one
    call or more, from any log, the log holds at most 100 entries. *)
Theorem audit_log_capped (w : world A) (action details : string)
    (rest : list (string * string)) :
  (add_to_history action details w).1 = true ∧
  HISTORY_FILE (add_to_history action details w).2 =
    Json (AuditEntry (clock w (ticks w)) action details ::
          take 99 (load_history w).1) ∧
  length (load_history
            (add_all_to_history ((action, details) :: rest) w).2).1 ≤ 100.
Proof.
  destruct (add_to_history_file action details w) as [Hok Hfile].
  split; [done|]. split; [done|].
  apply capped_load_history. simpl. unfold mbind, App_bind.
  destruct (add_to_history action details w) as [b w'] eqn:E.
  apply add_all_to_history_capped.
  replace w' with (add_to_history action details w).2 by (by rewrite E).
  apply add_to_history_capped.
Qed.
End history_facts.

(** * Properties of the upload loop *)

Section upload_facts.
Context {A : Type} `{Amount A}.
Variable to_numeric : cell A → option A.
Variable to_datetime : cell A → option Z.
Variable json_encodable : transaction A → bool.

#[local] Abbreviation parse := (parse_workbook to_numeric to_datetime).
#[local] Abbreviation load := (load_excel_file to_numeric to_datetime).
#[local] Abbreviation upload := (upload_one to_numeric to_datetime json_encodable).
#[local] Abbreviation upload_all := (upload_files to_numeric to_datetime json_encodable).

Lemma load_excel_file_failed (file : uploaded_file A) (e : load_error)
    (w : world A) :
  parse file = inl e →
  load file w = (None, (show (load_error_message e) w).2).
Proof.
  intros Hparse. unfold load_excel_file. rewrite Hparse.
  by destruct e.
Qed.

Lemma load_excel_file_loaded (file : uploaded_file A)
    (rows : list (transaction A)) (w : world A) :
  parse file = inr rows → load file w = (Some rows, w).
Proof. intros Hparse. unfold load_excel_file. by rewrite Hparse. Qed.

Lemma upload_one_registered (file : uploaded_file A) (w : world A) :
  name file ∈ registered w → upload file w = (tt, w).
Proof.
  intros Hin. unfold upload_one, mbind, App_bind, get_loaded_files.
  by rewrite decide_True by done.
Qed.

Lemma upload_one_failed (file : uploaded_file A) (e : load_error)
    (w : world A) :
  name file ∉ registered w → parse file = inl e →
  upload file w = (tt, (show (load_error_message e) w).2).
Proof.
  intros Hin Hparse. unfold upload_one, mbind, App_bind, get_loaded_files.
  rewrite decide_False by done.
  by rewrite (load_excel_file_failed _ _ _ Hparse).
Qed.

Lemma upload_one_loaded (file : uploaded_file A)
    (rows : list (transaction A)) (w : world A) :
  name file ∉ registered w → parse file = inr rows →
  loaded_files (upload file w).2 =
    loaded_files w ++ [FileInfo (name file) (length rows) (clock w (ticks w))] ∧
  df (upload file w).2 = Some (concat (df w) rows) ∧
  FILES_LIST_FILE (upload file w).2 = Json (loaded_files (upload file w).2).
Proof.
  intros Hin Hparse. unfold upload_one, mbind, App_bind, get_loaded_files.
  rewrite decide_False by done.
  rewrite (load_excel_file_loaded _ _ _ Hparse).
  unfold save_data, add_to_history, load_history, read_history, mbind,
    App_bind, mret, App_ret. simpl.
  destruct (HISTORY_FILE w); destruct (forallb json_encodable _); simpl; done.
Qed.
Lemma find_header_idx_None (rows : list (list (cell A))) :
  (∀ row, row ∈ rows → mentions_date_label row = false) →
  find_header_idx rows = None.
Proof.
  intros Hrows. unfold find_header_idx.
  destruct (list_find _ rows) as [[i row]|] eqn:E; [|done].
  apply list_find_Some in E as (Hi & Hrow & _).
  apply list_elem_of_lookup_2 in Hi. apply Hrows in Hi. congruence.
Qed.

(** C7: once a file has been loaded under a name, or when the name is
    already registered, uploading a file of that name again finds the name
    in [loaded_files] and does nothing: the registry, the ledger, the files
    and the page are all unchanged.  The first upload of an unregistered
    name appends one record for it and writes the registry to its file. *)
Theorem upload_same_name_is_noop (f g : uploaded_file A) (w : world A)
    (Hname : name g = name f)
    (Hfirst : name f ∈ registered w ∨ ∃ rows, parse f = inr rows) :
  name g ∈ registered (upload f w).2 ∧
  upload g (upload f w).2 = (tt, (upload f w).2) ∧
  (∀ rows, name f ∉ registered w → parse f = inr rows →
     loaded_files (upload f w).2 =
       loaded_files w ++
       [FileInfo (name f) (length rows) (clock w (ticks w))] ∧
     FILES_LIST_FILE (upload f w).2 = Json (loaded_files (upload f w).2)).
Proof.
  assert (name g ∈ registered (upload f w).2) as Hin.
  { rewrite Hname.
    destruct (decide (name f ∈ registered w)) as [Hreg|Hreg].
    - by rewrite (upload_one_registered _ _ Hreg).
    - destruct Hfirst as [?|[rows Hrows]]; [done|].
      destruct (upload_one_loaded _ _ _ Hreg Hrows) as [Hfiles _].
      unfold registered. rewrite Hfiles, map_app.
      apply elem_of_app. right. simpl. by left. }
  split; [done|]. split.
  - by apply upload_one_registered.
  - intros rows Hreg Hrows.
    destruct (upload_one_loaded _ _ _ Hreg Hrows) as (Hfiles & _ & Hsaved).
    done.
Qed.

(** C8: when the sheet can be read and no row of the frame mentions the date
    label, reading the file fails with the header error, which is shown on
    the page, and nothing is returned; the upload loop then goes on with the
    remaining files from a state that differs at most by that message. *)
Theorem header_not_found (f : uploaded_file A) (sh : sheet A)
    (rest : list (uploaded_file A)) (w : world A)
    (Hsheet : data_sheet f = Some sh)
    (Hrows : ∀ row, row ∈ body (read_excel sh 0) →
                    mentions_date_label row = false) :
  parse f = inl HeaderNotFound ∧
  load f w = (None, (show ErrHeaderNotFound w).2) ∧
  upload_all (f :: rest) w =
    upload_all rest
      (if decide (name f ∈ registered w) then w
       else (show ErrHeaderNotFound w).2).
Proof.
  assert (parse f = inl HeaderNotFound) as Hparse.
  { unfold parse_workbook. rewrite Hsheet. simpl.
    by rewrite (find_header_idx_None _ Hrows). }
  split; [done|]. split.
  - by rewrite (load_excel_file_failed _ _ w Hparse).
  - simpl. unfold mbind, App_bind. destruct (decide _) as [Hreg|Hreg].
    + by rewrite (upload_one_registered _ _ Hreg).
    + by rewrite (upload_one_failed _ _ _ Hreg Hparse).
Qed.

(** C10: when reading an uploaded file fails, with the header error or any
    other, the upload step leaves the session and the three files as they
    were: no record in the registry, no row in the ledger, no entry in the
    audit log, only the error on the page; the name stays unregistered, so
    a later upload under the same name is read again and, when it can be
    read, registered. *)
Theorem failed_upload_changes_nothing (f : uploaded_file A) (e : load_error)
    (w : world A)
    (Hparse : parse f = inl e) :
  df (upload f w).2 = df w ∧
  loaded_files (upload f w).2 = loaded_files w ∧
  DATA_FILE (upload f w).2 = DATA_FILE w ∧
  HISTORY_FILE (upload f w).2 = HISTORY_FILE w ∧
  FILES_LIST_FILE (upload f w).2 = FILES_LIST_FILE w ∧
  (name f ∉ registered w →
     screen (upload f w).2 = screen w ++ [load_error_message e] ∧
     (name f ∉ registered (upload f w).2) ∧
     (∀ g rows, name g = name f → parse g = inr rows →
        name g ∈ registered (upload g (upload f w).2).2)).
Proof.
  destruct (decide (name f ∈ registered w)) as [Hreg|Hreg].
  - rewrite (upload_one_registered _ _ Hreg). simpl. by repeat split.
  - rewrite (upload_one_failed _ _ _ Hreg Hparse).
    set (w' := (show (load_error_message e) w).2).
    assert (name f ∉ registered w') as Hreg' by done.
    do 5 (split; [done|]). intros _. do 2 (split; [done|]).
    intros g rows Hname Hrows. rewrite <- Hname in Hreg'.
    destruct (upload_one_loaded _ _ _ Hreg' Hrows) as [Hfiles _].
    cbn [snd]. unfold registered. rewrite Hfiles, map_app.
    apply elem_of_app. right. simpl. by left.
Qed.
End upload_facts.

(** * Properties of the manual-entry form *)

Section form_facts.
Context {A : Type} `{Amount A}.
Variable json_encodable : transaction A → bool.
Variable format_amount : A → string.

#[local] Abbreviation submit := (submit_transaction json_encodable format_amount).

Lemma rejected_iff (f : form A) :
  rejected f = true ↔
  added_by f = "" ∨ selected_month f = "" ∨ account f = "" ∨
  payment_type f = "" ∨ description f = "" ∨ aleb (amount f) azero = true.
Proof.
  unfold rejected. rewrite !orb_true_iff, !bool_decide_eq_true. tauto.
Qed.

Lemma accepted_amount_nonzero (f : form A) :
  rejected f = false → amount f ≠ azero.
Proof.
  intros Hacc Hzero. unfold rejected in Hacc.
  rewrite Hzero, aleb_zero, !orb_true_r in Hacc. done.
Qed.

Lemma submit_accepted (f : form A) (w : world A) :
  rejected f = false →
  df (submit f w).2 =
    Some (concat (df w) [new_transaction f (clock w (ticks w))]).
Proof.
  intros Hacc. unfold submit_transaction. rewrite Hacc.
  unfold save_data, add_to_history, load_history, read_history, mbind,
    App_bind, mret, App_ret. simpl.
  destruct (HISTORY_FILE w); destruct (forallb json_encodable _); simpl; done.
Qed.

(** C9: a submission is rejected exactly when the user name, the month, the
    account, the payment type or the description is empty or the amount is
    at most zero; a rejected submission only shows the validation error, so
    the ledger, the registry and the files are unchanged and no row exists;
    an accepted one appends a single row to the ledger, flagged as added
    manually, with exactly one of expense and revenue different from
    zero. *)
Theorem manual_entry_validated (f : form A) (w : world A) :
  (rejected f = true ↔
   added_by f = "" ∨ selected_month f = "" ∨ account f = "" ∨
   payment_type f = "" ∨ description f = "" ∨ aleb (amount f) azero = true) ∧
  (rejected f = true → submit f w = (tt, (show ErrValidation w).2)) ∧
  (rejected f = true →
     df (submit f w).2 = df w ∧
     loaded_files (submit f w).2 = loaded_files w ∧
     DATA_FILE (submit f w).2 = DATA_FILE w ∧
     HISTORY_FILE (submit f w).2 = HISTORY_FILE w ∧
     FILES_LIST_FILE (submit f w).2 = FILES_LIST_FILE w) ∧
  (rejected f = false →
     ∃ r, df (submit f w).2 = Some (default [] (df w) ++ [r]) ∧
          addedManually r = true ∧
          (t_expense r ≠ azero ∧ t_revenue r = azero ∨
           t_expense r = azero ∧ t_revenue r ≠ azero)).
Proof.
  split; [apply rejected_iff|].
  split; [|split].
  - intros Hrej. unfold submit_transaction. by rewrite Hrej.
  - intros Hrej. unfold submit_transaction. by rewrite Hrej.
  - intros Hacc. exists (new_transaction f (clock w (ticks w))).
    split; [by apply submit_accepted|]. split; [done|].
    pose proof (accepted_amount_nonzero f Hacc) as Hnz.
    simpl. destruct (kind f); [by right|by left].
Qed.
End form_facts.

(** * Properties of the monthly roll-up *)

Section monthly_facts.
Context {A : Type} `{Amount A}.

Lemma month_order_NoDup : NoDup month_order.
Proof. apply (bool_decide_unpack _). by vm_compute. Qed.

Lemma category_code_lookup (s : string) :
  s ∈ month_order → month_order !! category_code s = Some s.
Proof.
  intros Hs. unfold category_code.
  destruct (list_find (λ m, m = s) month_order) as [[i m]|] eqn:E.
  - apply list_find_Some in E as (Hi & -> & _). done.
  - apply list_find_None in E. rewrite Forall_forall in E.
    by destruct (E s Hs).
Qed.

Lemma category_code_inj (s t : string) :
  s ∈ month_order → t ∈ month_order →
  category_code s = category_code t → s = t.
Proof.
  intros Hs Ht Hcode. apply category_code_lookup in Hs, Ht.
  rewrite Hcode in Hs. congruence.
Qed.

Lemma categorical_Some (c : cell A) (s : string) :
  categorical c = Some s ↔ c = Text s ∧ s ∈ month_order.
Proof.
  unfold categorical. split.
  - destruct c as [|x|t|d]; try done. case_decide; [|done].
    by intros [= ->].
  - intros [-> Hs]. by rewrite decide_True by done.
Qed.

Lemma cell_key_Text (c : cell A) (s : string) :
  cell_key c = Text s ↔ c = Text s.
Proof. destruct c; simpl; split; congruence. Qed.

Lemma group_keys_NoDup (rows : list (transaction A)) :
  NoDup (group_keys rows).
Proof.
  unfold group_keys. rewrite merge_sort_Permutation. apply NoDup_remove_dups.
Qed.

Lemma group_keys_Text (rows : list (transaction A)) (s : string) :
  Text s ∈ group_keys rows ↔ Text s ∈ map t_month rows.
Proof.
  unfold group_keys.
  rewrite merge_sort_Permutation, elem_of_remove_dups, list_elem_of_filter.
  change (map ?f ?l) with (f <$> l). rewrite !list_elem_of_fmap. split.
  - intros (_ & r & Hk & Hr). exists r. split; [|done].
    symmetry. apply cell_key_Text. done.
  - intros (r & Hk & Hr). split; [done|]. exists r. split; [|done].
    symmetry. apply cell_key_Text. done.
Qed.

(** The month column of the frame before it is sorted. *)
Lemma groupby_month_months (rows : list (transaction A)) :
  map m_month
    (map (λ '(k, revenue, expense), MonthlyRow (categorical k) revenue expense)
         (groupby_month rows)) =
  map categorical (group_keys rows).
Proof.
  unfold groupby_month. rewrite !map_map. by apply map_ext.
Qed.

Lemma filter_None_months (l : list (monthly_row A)) :
  map m_month (filter (λ r, m_month r = None) l) =
  replicate (length (filter (λ r, m_month r = None) l)) None.
Proof.
  induction l as [|r l IH]; [done|]. rewrite filter_cons.
  case_decide as Hr; [|done]. simpl. by rewrite Hr, IH.
Qed.

Lemma filter_Some_months (l : list (monthly_row A)) :
  map m_month (filter (λ r, is_Some (m_month r)) l) =
  filter is_Some (map m_month l).
Proof.
  induction l as [|r l IH]; [done|]. simpl. rewrite !filter_cons.
  case_decide; simpl; by rewrite IH.
Qed.

Lemma categorical_keys_NoDup (keys : list (cell A)) :
  NoDup keys → NoDup (filter is_Some (map categorical keys)).
Proof.
  induction 1 as [|k keys Hk Hkeys IH]; simpl; [constructor|].
  rewrite filter_cons. case_decide as Hc; [|done].
  constructor; [|done].
  destruct Hc as [s Hs]. rewrite Hs.
  intros [_ Hin]%list_elem_of_filter.
  change (map ?f ?l) with (f <$> l) in Hin.
  apply list_elem_of_fmap in Hin as (k' & Hk' & Hin).
  symmetry in Hk'. apply categorical_Some in Hs as [-> _].
  apply categorical_Some in Hk' as [-> _]. done.
Qed.

Lemma option_code_le_trans : Transitive option_code_le.
Proof. unfold option_code_le. intros x y z. lia. Qed.

Lemma code_le_total : Total (code_le (A:=A)).
Proof. unfold code_le. intros x y. lia. Qed.

Lemma month_order_sorted :
  StronglySorted option_code_le (map Some month_order).
Proof.
  unfold month_order. simpl.
  repeat (constructor; [|repeat constructor; unfold option_code_le; vm_compute; lia]).
  constructor.
Qed.

Lemma StronglySorted_filter {X} (R : relation X) (P : X → Prop)
    `{∀ x, Decision (P x)} (l : list X) :
  StronglySorted R l → StronglySorted R (filter P l).
Proof.
  induction 1 as [|x l Hl IH Hx]; [constructor|].
  rewrite filter_cons. case_decide; [|done].
  constructor; [done|].
  rewrite Forall_forall in Hx |- *.
  intros y [_ Hy]%list_elem_of_filter. by apply Hx.
Qed.
Lemma months_sorted (rows : list (transaction A)) :
  StronglySorted option_code_le
    (map Some (filter (λ m, Text m ∈ map t_month rows) month_order)).
Proof.
  apply (StronglySorted_fmap Some (λ s t, option_code_le (Some s) (Some t)));
    [done|].
  apply StronglySorted_filter.
  pose proof month_order_sorted as Hs.
  induction month_order as [|m l IH]; [constructor|].
  simpl in Hs. inversion Hs as [|? ? Hl Hm]; subst.
  constructor; [by apply IH|].
  change (map ?f ?l) with (f <$> l) in Hm. by rewrite Forall_fmap in Hm.
Qed.

Lemma sorted_months_sorted (l : list (monthly_row A)) :
  StronglySorted option_code_le (map m_month (merge_sort code_le l)).
Proof.
  apply Sorted_StronglySorted; [apply option_code_le_trans|].
  apply (Sorted_fmap m_month code_le); [done|].
  apply Sorted_merge_sort. apply code_le_total.
Qed.

Lemma months_present (rows : list (transaction A)) (o : option string) :
  o ∈ filter is_Some (map categorical (group_keys rows)) ↔
  o ∈ map Some (filter (λ m, Text m ∈ map t_month rows) month_order).
Proof.
  rewrite list_elem_of_filter.
  change (map ?f ?l) with (f <$> l). rewrite !list_elem_of_fmap. split.
  - intros ([s ->] & k & Hk & Hin). symmetry in Hk.
    apply categorical_Some in Hk as [-> Hs].
    exists s. split; [done|]. apply list_elem_of_filter. split; [|done].
    by apply group_keys_Text.
  - intros (s & -> & [Hrows Hs]%list_elem_of_filter).
    split; [by eexists|]. exists (Text s). split.
    + symmetry. by apply categorical_Some.
    + by apply group_keys_Text.
Qed.

Lemma length_filter_None (keys : list (cell A * A * A)) :
  length (filter (λ r : monthly_row A, m_month r = None)
            (map (λ '(k, revenue, expense),
                    MonthlyRow (categorical k) revenue expense) keys)) =
  length (filter (λ k, categorical k = None) (map (λ x, x.1.1) keys)).
Proof.
  induction keys as [|[[k r] e] keys IH]; [done|]. simpl.
  rewrite !filter_cons. simpl. case_decide; simpl; by rewrite IH.
Qed.

Lemma monthly_data_months (rows : list (transaction A)) :
  map m_month (monthly_data rows) =
  map Some (filter (λ m, Text m ∈ map t_month rows) month_order) ++
  replicate
    (length (filter (λ k, categorical k = None) (group_keys rows))) None.
Proof.
  unfold monthly_data, sort_values. rewrite map_app. f_equal.
  - apply (StronglySorted_unique_strong option_code_le).
    + intros o1 o2 Ho1 Ho2 Hle1 Hle2.
      change (map ?f ?l) with (f <$> l) in Ho1.
      rewrite merge_sort_Permutation in Ho1.
      change (?f <$> ?l) with (map f l) in Ho1.
      rewrite filter_Some_months, groupby_month_months in Ho1.
      apply months_present in Ho1.
      change (map ?f ?l) with (f <$> l) in Ho1, Ho2.
      apply list_elem_of_fmap in Ho1 as (s1 & -> & [_ Hs1]%list_elem_of_filter).
      apply list_elem_of_fmap in Ho2 as (s2 & -> & [_ Hs2]%list_elem_of_filter).
      f_equal. apply category_code_inj; [done..|].
      unfold option_code_le in *. simpl in *. lia.
    + apply sorted_months_sorted.
    + apply months_sorted.
    + change (map ?f (merge_sort ?R ?l)) with (f <$> merge_sort R l).
      rewrite merge_sort_Permutation.
      change (?f <$> ?l) with (map f l).
      rewrite filter_Some_months, groupby_month_months.
      apply NoDup_Permutation.
      * apply categorical_keys_NoDup, group_keys_NoDup.
      * change (map ?f ?l) with (f <$> l).
        apply (NoDup_fmap_2 _). apply NoDup_filter, month_order_NoDup.
      * apply months_present.
  - rewrite filter_None_months, length_filter_None.
    unfold groupby_month. rewrite map_map. simpl. by rewrite map_id.
Qed.

Lemma group_keys_Permutation (rows rows' : list (transaction A)) :
  rows ≡ₚ rows' → group_keys rows ≡ₚ group_keys rows'.
Proof.
  intros Hperm. unfold group_keys. rewrite !merge_sort_Permutation.
  apply NoDup_Permutation; [apply NoDup_remove_dups..|].
  intros c. rewrite !elem_of_remove_dups, !list_elem_of_filter.
  change (map ?f ?l) with (f <$> l). by rewrite Hperm.
Qed.

(** C5: the months of the roll-up are the months of [month_order] that some
    row of the ledger carries, each once and in the order of [month_order]
    (neither alphabetical nor by first appearance), followed by one [NaN]
    row for every other label of the ledger; a month that no row carries
    has no row in the roll-up; and the ledger rows in any other order give
    the same months in the same order. *)
Theorem monthly_data_canonical_order (rows : list (transaction A)) :
  map m_month (monthly_data rows) =
    map Some (filter (λ m, Text m ∈ map t_month rows) month_order) ++
    replicate
      (length (filter (λ k, categorical k = None) (group_keys rows))) None ∧
  (∀ rows', rows ≡ₚ rows' →
     map m_month (monthly_data rows') = map m_month (monthly_data rows)).
Proof.
  split; [apply monthly_data_months|].
  intros rows' Hperm. rewrite !monthly_data_months. f_equal.
  - f_equal. apply list_filter_iff. intros m.
    change (map ?f ?l) with (f <$> l). by rewrite Hperm.
  - f_equal. apply Permutation_length.
    by rewrite (group_keys_Permutation _ _ Hperm).
Qed.
Lemma sort_values_Permutation (l : list (monthly_row A)) : sort_values l ≡ₚ l.
Proof.
  unfold sort_values. rewrite merge_sort_Permutation.
  rewrite <- (filter_app_complement (λ r, is_Some (m_month r)) l) at 3.
  f_equiv. apply reflexive_eq, list_filter_iff.
  intros r. by rewrite eq_None_not_Some.
Qed.



Lemma total_Permutation `{!ExactAmount A} `{!CommutativeAmount A}
    (l k : list A) :
  l ≡ₚ k → total l = total k.
Proof.
  unfold total. induction 1 as [|x l k _ IH|x y l|l k j _ IH1 _ IH2]; simpl.
  - done.
  - by rewrite IH.
  - rewrite <- !aadd_assoc. f_equal. apply aadd_comm.
  - by rewrite IH1.
Qed.

Lemma column_sum_cons `{!ExactAmount A} (col : transaction A → A)
    (x : transaction A) (l : list (transaction A)) :
  column_sum col (x :: l) = aadd (col x) (column_sum col l).
Proof.
  unfold column_sum at 1. simpl. by rewrite column_sum_from, aadd_zero_l.
Qed.

Lemma total_zeros `{!ExactAmount A} {X} (keys : list X) :
  total (map (λ _, azero) keys) = azero.
Proof.
  unfold total. induction keys as [|k keys IH]; simpl; [done|].
  by rewrite IH, aadd_zero_l.
Qed.

(** Adding [c] to the entry of one key adds [c] to the total. *)
Lemma total_add_at `{!ExactAmount A} `{!CommutativeAmount A} {X}
    `{EqDecision X} (keys : list X) (k0 : X) (c : A) (f : X → A) :
  NoDup keys → k0 ∈ keys →
  total (map (λ k, if decide (k0 = k) then aadd c (f k) else f k) keys) =
  aadd c (total (map f keys)).
Proof.
  unfold total. induction 1 as [|k keys Hk Hkeys IH]; simpl.
  - by intros ?%not_elem_of_nil.
  - intros [<-|Hin]%elem_of_cons.
    + rewrite decide_True by done. rewrite aadd_assoc. do 2 f_equal.
      f_equal. apply map_ext_in. intros k Hin%list_elem_of_In.
      rewrite decide_False; [done|]. by intros <-.
    + rewrite decide_False by (by intros <-).
      rewrite IH by done. rewrite <- !aadd_assoc. f_equal. apply aadd_comm.
Qed.

(** The sums of the groups of a column add up to the sum of the column over
    the rows that have a label. *)
Lemma groups_total `{!ExactAmount A} `{!CommutativeAmount A}
    (col : transaction A → A) (keys : list (cell A))
    (rows : list (transaction A)) :
  NoDup keys → (∀ k, k ∈ keys → isna k = false) →
  (∀ x, x ∈ rows → isna (t_month x) = false → cell_key (t_month x) ∈ keys) →
  total (map (λ k, column_sum col
                     (filter (λ x, cell_key (t_month x) = k) rows)) keys) =
  column_sum col (filter (λ x, isna (t_month x) = false) rows).
Proof.
  intros Hnodup Hkeys. induction rows as [|x rows IH]; intros Hcover.
  - simpl. apply total_zeros.
  - assert (total (map (λ k, column_sum col
                     (filter (λ x, cell_key (t_month x) = k) rows)) keys) =
            column_sum col (filter (λ x, isna (t_month x) = false) rows))
      as IH'.
    { apply IH. intros y Hy. apply Hcover. by right. }
    rewrite filter_cons. destruct (decide (isna (t_month x) = false)) as [Hx|Hx].
    + assert (cell_key (t_month x) ∈ keys) as Hin.
      { apply Hcover; [by left|done]. }
      rewrite column_sum_cons, <- IH'.
      rewrite <- (total_add_at keys (cell_key (t_month x)) (col x) _ Hnodup Hin).
      f_equal. apply map_ext. intros k. rewrite filter_cons.
      destruct (decide (cell_key (t_month x) = k)); [|done].
      apply column_sum_cons.
    + rewrite <- IH'. f_equal. apply map_ext_in. intros k Hk%list_elem_of_In.
      rewrite filter_cons, decide_False; [done|].
      intros <-. apply Hkeys in Hk. destruct (t_month x); done.
Qed.

Lemma group_keys_labels (rows : list (transaction A)) (k : cell A) :
  k ∈ group_keys rows ↔
  isna k = false ∧ ∃ x, x ∈ rows ∧ cell_key (t_month x) = k.
Proof.
  unfold group_keys.
  rewrite merge_sort_Permutation, elem_of_remove_dups, list_elem_of_filter.
  change (map ?f ?l) with (f <$> l). rewrite list_elem_of_fmap.
  split; intros (Hk & x & Hx & Hin); (split; [done|]); by exists x.
Qed.

Lemma total_sub `{!ExactAmount A} {X} (f g : X → A) (l : list X) :
  total (map (λ x, asub (f x) (g x)) l) =
  asub (total (map f l)) (total (map g l)).
Proof.
  unfold total. induction l as [|x l IH]; simpl; [by rewrite asub_zero|].
  by rewrite IH, asub_aadd.
Qed.

(** X13: when amounts add up exactly (as for integers), the revenues of the
    rows of the roll-up add up to the revenue of the ledger rows that carry
    a month label, and likewise the expenses and the net profits: a ledger
    row whose month is empty is counted in no row of the roll-up. *)
Theorem monthly_data_accounts_for_labelled_rows `{!ExactAmount A}
    `{!CommutativeAmount A} (rows : list (transaction A)) :
  total (map m_revenue (monthly_data rows)) =
    column_sum t_revenue (filter (λ x, isna (t_month x) = false) rows) ∧
  total (map m_expense (monthly_data rows)) =
    column_sum t_expense (filter (λ x, isna (t_month x) = false) rows) ∧
  total (map monthly_net_profit (monthly_data rows)) =
    asub (column_sum t_revenue (filter (λ x, isna (t_month x) = false) rows))
         (column_sum t_expense (filter (λ x, isna (t_month x) = false) rows)).
Proof.
  assert (∀ col : transaction A → A,
            total (map (λ k, column_sum col
                     (filter (λ x, cell_key (t_month x) = k) rows))
                     (group_keys rows)) =
            column_sum col (filter (λ x, isna (t_month x) = false) rows))
    as Hgroups.
  { intros col. apply groups_total.
    - apply group_keys_NoDup.
    - by intros k [Hk _]%group_keys_labels.
    - intros x Hx Hna. apply group_keys_labels. split; [|by exists x].
      by destruct (t_month x). }
  assert (monthly_data rows ≡ₚ
          map (λ '(k, revenue, expense),
                 MonthlyRow (categorical k) revenue expense)
              (groupby_month rows)) as Hperm.
  { apply sort_values_Permutation. }
  assert (total (map m_revenue (monthly_data rows)) =
            column_sum t_revenue (filter (λ x, isna (t_month x) = false) rows) ∧
          total (map m_expense (monthly_data rows)) =
            column_sum t_expense (filter (λ x, isna (t_month x) = false) rows))
    as [Hrevenue Hexpense].
  { split.
    - rewrite <- (Hgroups t_revenue).
      rewrite (total_Permutation _ _ (Permutation_map m_revenue Hperm)).
      unfold groupby_month. by rewrite !map_map.
    - rewrite <- (Hgroups t_expense).
      rewrite (total_Permutation _ _ (Permutation_map m_expense Hperm)).
      unfold groupby_month. by rewrite !map_map. }
  split; [done|]. split; [done|].
  unfold monthly_net_profit. by rewrite total_sub, Hrevenue, Hexpense.
Qed.
End monthly_facts.

(** * Properties of [load_excel_file] *)

Section load_facts.
Context {A : Type} `{Amount A}.
Variable to_numeric : cell A → option A.
Variable to_datetime : cell A → option Z.

#[local] Abbreviation parse := (parse_workbook to_numeric to_datetime).

Lemma prefix_refl (s : string) : String.prefix s s = true.
Proof.
  induction s as [|a s IH]; [done|]. simpl.
  destruct (Ascii.ascii_dec a a); [done|congruence].
Qed.

Lemma contains_refl (s : string) : contains s s = true.
Proof. destruct s; [done|]. cbn [contains]. by rewrite prefix_refl. Qed.

(** A row that has the date label as a cell mentions the label. *)
Lemma labelled_row_mentions (row : list (cell A)) (j : nat) :
  column_position COL_DATE row = Some j → mentions_date_label row = true.
Proof.
  unfold column_position, mentions_date_label.
  destruct (list_find _ row) as [[i c]|] eqn:E; [|done]. intros _.
  apply list_find_Some in E as (Hi & -> & _).
  apply existsb_exists. exists (Text COL_DATE). split.
  - apply list_elem_of_In. by eapply list_elem_of_lookup_2.
  - apply contains_refl.
Qed.

Lemma find_header_idx_Some (rows : list (list (cell A))) (idx : nat) :
  find_header_idx rows = Some idx →
  (∃ row, rows !! idx = Some row ∧ mentions_date_label row = true) ∧
  (∀ j row, j < idx → rows !! j = Some row → mentions_date_label row = false).
Proof.
  unfold find_header_idx.
  destruct (list_find _ rows) as [[i row]|] eqn:E; [|done].
  intros [= <-]. apply list_find_Some in E as (Hi & Hrow & Hbefore).
  split; [by exists row|].
  intros j row' Hj Hrow'. specialize (Hbefore j row' Hrow' Hj).
  by destruct (mentions_date_label row').
Qed.

(** What a successful read looks like: the labels stand in the first row of
    the sheet, the label is mentioned again in the second row, and the rows
    are made from all rows below the first. *)
Lemma parse_workbook_success (file : uploaded_file A)
    (records : list (transaction A)) :
  parse file = inr records →
  ∃ labels rest jd je jr,
    data_sheet file = Some (labels :: rest) ∧
    find_header_idx rest = Some 0 ∧
    column_position COL_DATE labels = Some jd ∧
    column_position COL_EXPENSE labels = Some je ∧
    column_position COL_REVENUE labels = Some jr ∧
    records =
      map (import_row to_numeric to_datetime labels jd je jr)
        (filter (λ row, isna (cell_at jd row) = false)
           (filter (λ row, forallb isna row = false) rest)).
Proof.
  unfold parse_workbook. destruct (data_sheet file) as [sh|]; [|done].
  destruct sh as [|labels rest]; [done|].
  change (body (read_excel (labels :: rest) 0)) with rest.
  destruct (find_header_idx rest) as [idx|] eqn:Hidx; [|done].
  destruct idx as [|i].
  - change (read_excel (labels :: rest) 0) with (RawFrame labels rest).
    cbn [columns body].
    destruct (column_position COL_DATE labels) as [jd|] eqn:Hjd; [|done].
    destruct (column_position COL_EXPENSE labels) as [je|] eqn:Hje; [|done].
    destruct (column_position COL_REVENUE labels) as [jr|] eqn:Hjr; [|done].
    intros [= <-]. by exists labels, rest, jd, je, jr.
  - apply find_header_idx_Some in Hidx as [(row & Hrow & _) Hbefore].
    unfold read_excel. cbn [drop].
    destruct (drop i rest) as [|above below] eqn:Hdrop.
    { apply (f_equal length) in Hdrop. rewrite length_drop in Hdrop.
      apply lookup_lt_Some in Hrow. simpl in Hdrop. lia. }
    cbn [columns body].
    assert (rest !! i = Some above) as Habove.
    { rewrite <- (Nat.add_0_r i), <- lookup_drop, Hdrop. done. }
    destruct (column_position COL_DATE above) as [jd|] eqn:Hjd; [|done].
    apply labelled_row_mentions in Hjd.
    rewrite (Hbefore i above) in Hjd by (done || lia). done.
Qed.

(** Every row made by a successful read carries the three stamps, and an
    amount cell that [to_numeric] cannot read gives zero. *)
Lemma parse_workbook_rows (file : uploaded_file A)
    (records : list (transaction A)) (r : transaction A) :
  parse file = inr records → r ∈ records →
  addedBy r = "" ∧ addedTimestamp r = "" ∧ addedManually r = false.
Proof.
  intros (labels & rest & jd & je & jr & _ & _ & _ & _ & _ & ->)%parse_workbook_success.
  change (map ?f ?l) with (f <$> l).
  by intros (row & -> & _)%list_elem_of_fmap.
Qed.

Lemma import_row_amounts (cols row : list (cell A)) (jd je jr : nat) :
  (to_numeric (cell_at je row) = None →
     t_expense (import_row to_numeric to_datetime cols jd je jr row) = azero) ∧
  (to_numeric (cell_at jr row) = None →
     t_revenue (import_row to_numeric to_datetime cols jd je jr row) = azero).
Proof. simpl. split; by intros ->. Qed.

(** C4 (the code at the failing inputs): a sheet with a title row, then the
    label row, then a data row has an identifiable header row and one
    dated row, yet it is read with the title row as column labels, the date
    column is not found and no row is produced; a sheet that starts with the
    label row is refused as having no header. *)
Theorem load_excel_file_misses_header (w : world A) :
  parse (UploadedFile "c.xlsx" (Some [title_row; labels_row; data_row])) =
    inl (ReadFailed (KeyError COL_DATE)) ∧
  load_excel_file to_numeric to_datetime
      (UploadedFile "c.xlsx" (Some [title_row; labels_row; data_row])) w =
    (None, (show (ErrReadFile (KeyError COL_DATE)) w).2) ∧
  parse (UploadedFile "b.xlsx" (Some [labels_row; data_row])) =
    inl HeaderNotFound ∧
  load_excel_file to_numeric to_datetime
      (UploadedFile "b.xlsx" (Some [labels_row; data_row])) w =
    (None, (show ErrHeaderNotFound w).2).
Proof.
  assert (parse (UploadedFile "c.xlsx" (Some [title_row; labels_row; data_row]))
          = inl (ReadFailed (KeyError COL_DATE))) as H1 by reflexivity.
  assert (parse (UploadedFile "b.xlsx" (Some [labels_row; data_row]))
          = inl HeaderNotFound) as H2 by reflexivity.
  unfold load_excel_file. rewrite H1, H2. done.
Qed.



End load_facts.

(** * Properties of the script as a whole *)

Section script_facts.
Context {A : Type} `{Amount A}.
Variable to_numeric : cell A → option A.
Variable to_datetime : cell A → option Z.
Variable json_encodable : transaction A → bool.
Variable format_amount : A → string.

#[local] Abbreviation parse := (parse_workbook to_numeric to_datetime).
#[local] Abbreviation upload := (upload_one to_numeric to_datetime json_encodable).
#[local] Abbreviation upload_all :=
  (upload_files to_numeric to_datetime json_encodable).
#[local] Abbreviation submit := (submit_transaction json_encodable format_amount).
#[local] Abbreviation run :=
  (script to_numeric to_datetime json_encodable format_amount).
#[local] Abbreviation run_all :=
  (session to_numeric to_datetime json_encodable format_amount).

Lemma load_history_log (w : world A) : (load_history w).1 = log_of w.
Proof.
  unfold load_history, read_history, log_of, mbind, App_bind. simpl.
  by destruct (HISTORY_FILE w).
Qed.

Lemma log_capped_log (w : world A) : log_capped w ↔ length (log_of w) ≤ 100.
Proof. unfold log_capped. by rewrite load_history_log. Qed.

Lemma upload_one_cases (file : uploaded_file A) (w : world A) :
  upload file w = (tt, w) ∨
  (∃ e, upload file w = (tt, (show (load_error_message e) w).2)) ∨
  (∃ rows, (name file ∉ registered w) ∧ parse file = inr rows).
Proof.
  destruct (decide (name file ∈ registered w)) as [Hreg|Hreg].
  - left. by apply upload_one_registered.
  - destruct (parse file) as [e|rows] eqn:Hparse.
    + right. left. exists e. by apply upload_one_failed.
    + right. right. by exists rows.
Qed.

Lemma upload_one_loaded_log (file : uploaded_file A)
    (rows : list (transaction A)) (w : world A) :
  name file ∉ registered w → parse file = inr rows →
  ∃ e, log_of (upload file w).2 = e :: take 99 (log_of w).
Proof.
  intros Hin Hparse. unfold upload_one, mbind, App_bind, get_loaded_files.
  rewrite decide_False by done.
  rewrite (load_excel_file_loaded _ _ _ _ w Hparse).
  unfold save_data, add_to_history, load_history, read_history, log_of, mbind,
    App_bind, mret, App_ret. simpl.
  destruct (HISTORY_FILE w); destruct (forallb json_encodable _); simpl;
    by eexists.
Qed.

(** A property of the world that every handler keeps is kept by the upload
    loop, by a run of the script and by a session. *)
Lemma upload_files_preserves (P : world A → Prop)
    (uploaded : list (uploaded_file A)) (w : world A) :
  (∀ f w, P w → P (upload f w).2) → P w → P (upload_all uploaded w).2.
Proof.
  intros Hupload. revert w.
  induction uploaded as [|f uploaded IH]; intros w Hw; [done|].
  simpl. unfold mbind, App_bind.
  destruct (upload f w) as [[] w1] eqn:E. apply IH.
  replace w1 with (upload f w).2 by (by rewrite E). by apply Hupload.
Qed.

Lemma script_preserves (P : world A → Prop)
    (uploaded : list (uploaded_file A)) (pressed : option (click A))
    (w : world A) :
  (∀ f w, P w → P (upload f w).2) →
  (∀ f w, P w → P (submit f w).2) →
  (∀ w, P w → P (remove_duplicates_button json_encodable w).2) →
  (∀ w, P w → P (delete_manual_button json_encodable w).2) →
  (∀ w, P w → P (delete_all_button w).2) →
  (∀ w, P w → P (reset_button json_encodable w).2) →
  (∀ w, P w → P (clear_history_button w).2) →
  (∀ idx w, P w → P (delete_file_button idx w).2) →
  P w → P (run uploaded pressed w).2.
Proof.
  intros Hupload Hsubmit Hremove Hmanual Hall Hreset Hclear Hfile Hw.
  assert (∀ w, P w → P (upload_all uploaded w).2) as Hloop.
  { intros w0. by apply upload_files_preserves. }
  unfold script, mbind, App_bind.
  destruct (upload_all uploaded w) as [[] w1] eqn:E1.
  assert (P w1) as Hw1.
  { replace w1 with (upload_all uploaded w).2 by (by rewrite E1). auto. }
  unfold get_df, get_loaded_files.
  destruct pressed as [[f| | | | | |idx]|]; cbv beta iota; try done.
  - destruct (df w1); [|done]. specialize (Hsubmit f w1 Hw1).
    by destruct (submit f w1).
  - destruct (df w1); [|done]. specialize (Hmanual w1 Hw1).
    destruct (delete_manual_button json_encodable w1) as [shown w2].
    specialize (Hloop w2 Hmanual). by destruct (upload_all uploaded w2).
  - destruct (df w1); [|done]. specialize (Hall w1 Hw1).
    destruct (delete_all_button w1) as [shown w2].
    specialize (Hloop w2 Hall). by destruct (upload_all uploaded w2).
  - destruct (df w1); [|done]. destruct (loaded_files w1); [done|].
    specialize (Hreset w1 Hw1).
    destruct (reset_button json_encodable w1) as [shown w2].
    specialize (Hloop w2 Hreset). by destruct (upload_all uploaded w2).
  - destruct (df w1); [|done]. destruct (loaded_files w1); [done|].
    specialize (Hclear w1 Hw1).
    destruct (clear_history_button w1) as [shown w2].
    specialize (Hloop w2 Hclear). by destruct (upload_all uploaded w2).
  - destruct (df w1) as [rows|]; [|done].
    destruct (loaded_files w1); [done|]. destruct (duplicates rows); [done|].
    specialize (Hremove w1 Hw1).
    destruct (remove_duplicates_button json_encodable w1) as [[] w2].
    specialize (Hloop w2 Hremove). by destruct (upload_all uploaded w2).
  - specialize (Hfile idx w1 Hw1).
    destruct (delete_file_button idx w1) as [[|n shown] w2]; [done|].
    specialize (Hloop w2 Hfile). by destruct (upload_all uploaded w2).
Qed.

Lemma session_preserves (P : world A → Prop)
    (runs : list (list (uploaded_file A) * option (click A))) (w : world A) :
  (∀ uploaded pressed w, P w → P (run uploaded pressed w).2) →
  P w → P (run_all runs w).2.
Proof.
  intros Hrun. revert w.
  induction runs as [|[uploaded pressed] runs IH]; intros w Hw; [done|].
  simpl. unfold mbind, App_bind.
  destruct (run uploaded pressed w) as [shown w1] eqn:E. apply IH.
  replace w1 with (run uploaded pressed w).2 by (by rewrite E). by apply Hrun.
Qed.

(** ** The audit log stays capped *)

Lemma upload_one_log_capped (f : uploaded_file A) (w : world A) :
  log_capped w → log_capped (upload f w).2.
Proof.
  rewrite !log_capped_log. intros Hw.
  destruct (upload_one_cases f w) as [->|[[e ->]|(rows & Hreg & Hparse)]];
    [done..|].
  destruct (upload_one_loaded_log f rows w Hreg Hparse) as [e ->].
  simpl. rewrite length_take. lia.
Qed.

Lemma handlers_log_capped (w : world A) :
  log_capped w →
  (∀ f, log_capped (submit f w).2) ∧
  log_capped (remove_duplicates_button json_encodable w).2 ∧
  log_capped (delete_manual_button json_encodable w).2 ∧
  log_capped (delete_all_button w).2 ∧
  log_capped (reset_button json_encodable w).2 ∧
  log_capped (clear_history_button w).2 ∧
  (∀ idx, log_capped (delete_file_button idx w).2).
Proof.
  rewrite log_capped_log. unfold log_of. intros Hw.
  repeat split; intros; rewrite ?log_capped_log; unfold log_of;
    unfold_handlers; simpl;
    repeat case_match; simplify_eq/=; rewrite ?length_take;
    first [congruence | lia].
Qed.

(** X1: whatever the user does (uploads, manual entries, duplicate removal,
    deletions, resets), a log that holds at most 100 entries when a session
    starts holds at most 100 entries after every run of the script. *)
Theorem session_keeps_log_capped
    (runs : list (list (uploaded_file A) * option (click A))) (w : world A) :
  log_capped w → log_capped (run_all runs w).2.
Proof.
  apply session_preserves. intros uploaded pressed w0.
  apply script_preserves; intros; try (by apply upload_one_log_capped);
    by apply handlers_log_capped.
Qed.

(** ** The registry file follows the registry *)

Lemma upload_one_registry_saved (f : uploaded_file A) (w : world A) :
  registry_saved w → registry_saved (upload f w).2.
Proof.
  intros Hw.
  destruct (upload_one_cases f w) as [->|[[e ->]|(rows & Hreg & Hparse)]].
  - done.
  - unfold registry_saved, load_files_list in *. simpl.
    by destruct (FILES_LIST_FILE w).
  - destruct (upload_one_loaded to_numeric to_datetime json_encodable
                f rows w Hreg Hparse) as (_ & _ & Hsaved).
    unfold registry_saved, load_files_list. by rewrite Hsaved.
Qed.

Lemma handlers_registry_saved (w : world A) :
  registry_saved w →
  (∀ f, registry_saved (submit f w).2) ∧
  registry_saved (remove_duplicates_button json_encodable w).2 ∧
  registry_saved (delete_manual_button json_encodable w).2 ∧
  registry_saved (delete_all_button w).2 ∧
  registry_saved (reset_button json_encodable w).2 ∧
  registry_saved (clear_history_button w).2 ∧
  (∀ idx, registry_saved (delete_file_button idx w).2).
Proof.
  unfold registry_saved. intros Hw.
  repeat split; intros; unfold_handlers; simpl;
    repeat case_match; simplify_eq/=; congruence.
Qed.

(** X2: after every run of the script the registry file holds exactly the
    registry of the session, provided it did when the session started (as
    it does when the session has just read its registry from the file): a
    restart finds the registry the user last saw. *)
Theorem session_keeps_registry_saved
    (runs : list (list (uploaded_file A) * option (click A))) (w : world A) :
  registry_saved w → registry_saved (run_all runs w).2.
Proof.
  apply session_preserves. intros uploaded pressed w0.
  apply script_preserves; intros; try (by apply upload_one_registry_saved);
    by apply handlers_registry_saved.
Qed.

(** ** File names stay unique in the registry *)

Lemma upload_one_names_unique (f : uploaded_file A) (w : world A) :
  NoDup (registered w) → NoDup (registered (upload f w).2).
Proof.
  intros Hw.
  destruct (upload_one_cases f w) as [->|[[e ->]|(rows & Hreg & Hparse)]];
    [exact Hw..|].
  destruct (upload_one_loaded to_numeric to_datetime json_encodable
              f rows w Hreg Hparse) as (Hfiles & _).
  unfold registered in *. rewrite Hfiles, map_app. simpl.
  apply NoDup_app. split; [done|]. split.
  - intros x Hx ->%list_elem_of_singleton. done.
  - apply NoDup_singleton.
Qed.

Lemma delete_file_names_unique (idx : nat) (w : world A) :
  NoDup (registered w) → NoDup (registered (delete_file_button idx w).2).
Proof.
  intros Hw. unfold registered in *. unfold_handlers. simpl.
  destruct (loaded_files w !! idx); [|done]. simpl.
  eapply sublist_NoDup; [exact Hw|].
  change (map ?f ?l) with (f <$> l). rewrite list_fmap_delete.
  apply sublist_delete.
Qed.

Lemma handlers_names_unique (w : world A) :
  NoDup (registered w) →
  (∀ f, NoDup (registered (submit f w).2)) ∧
  NoDup (registered (remove_duplicates_button json_encodable w).2) ∧
  NoDup (registered (delete_manual_button json_encodable w).2) ∧
  NoDup (registered (delete_all_button w).2) ∧
  NoDup (registered (reset_button json_encodable w).2) ∧
  NoDup (registered (clear_history_button w).2).
Proof.
  unfold registered. intros Hw.
  repeat split; intros; unfold_handlers; simpl;
    repeat case_match; simplify_eq/=; first [done | constructor].
Qed.

(** X3: the registry never holds two files of the same name: uniqueness of
    the names is kept by every run of the script, whatever is uploaded and
    whatever button is pressed. *)
Theorem session_keeps_names_unique
    (runs : list (list (uploaded_file A) * option (click A))) (w : world A) :
  NoDup (registered w) → NoDup (registered (run_all runs w).2).
Proof.
  apply (session_preserves (λ w, NoDup (registered w))).
  intros uploaded pressed w0.
  apply (script_preserves (λ w, NoDup (registered w))); intros;
    cbv beta in *;
    try (by apply upload_one_names_unique);
    try (by apply delete_file_names_unique);
    match goal with
    | Hw : NoDup (registered ?w) |- _ =>
        destruct (handlers_names_unique w Hw) as (? & ? & ? & ? & ? & ?)
    end; done.
Qed.
(** ** Saving and reading back the ledger *)

(** X4: saving the ledger succeeds exactly when [json.dump] can write every
    row.  Then the data file holds the rows and [load_saved_data] reads them
    back as the frame of those rows (a frame without columns for no row);
    otherwise the data file is left unreadable, the history file is left as
    it was, and [load_saved_data] shows an error and returns nothing.  In
    both cases the log reads as before and the session is untouched. *)
Theorem persist_round_trip (data : list (transaction A)) (w : world A) :
  (persist json_encodable data w).1 = forallb json_encodable data ∧
  DATA_FILE (persist json_encodable data w).2 =
    (if forallb json_encodable data then Json data else Garbled) ∧
  (load_saved_data (persist json_encodable data w).2).1 =
    (if forallb json_encodable data then (Some (DataFrame data), [])
     else (None, [ErrLoadData])) ∧
  (forallb json_encodable data = false →
     HISTORY_FILE (persist json_encodable data w).2 = HISTORY_FILE w) ∧
  log_of (persist json_encodable data w).2 = log_of w ∧
  df (persist json_encodable data w).2 = df w ∧
  loaded_files (persist json_encodable data w).2 = loaded_files w ∧
  FILES_LIST_FILE (persist json_encodable data w).2 = FILES_LIST_FILE w.
Proof.
  unfold persist, log_of. unfold_handlers. simpl.
  destruct (HISTORY_FILE w) eqn:Hh; destruct (forallb json_encodable data);
    simpl; rewrite ?Hh; done.
Qed.

(** ** The deletion buttons *)

Lemma manual_original_count (rows : list (transaction A)) :
  length rows = original_count rows + manual_count rows.
Proof.
  unfold original_count, manual_count.
  induction rows as [|r rows IH]; [done|].
  rewrite !filter_cons. destruct (addedManually r); simpl; lia.
Qed.

Lemma original_count_kept (rows : list (transaction A)) :
  manual_count (filter (λ r, addedManually r = false) rows) = 0 ∧
  original_count (filter (λ r, addedManually r = false) rows) =
    original_count rows.
Proof.
  unfold original_count, manual_count.
  induction rows as [|r rows [IH1 IH2]]; [done|].
  rewrite !filter_cons. destruct (addedManually r) eqn:E; simpl; [done|].
  rewrite !filter_cons, E. simpl. by rewrite IH1, IH2.
Qed.

(** X5: the button that deletes the manual entries keeps, in order, exactly
    the rows not added manually: afterwards the sidebar counts no manual
    row and as many original rows as before, the number it reports is the
    number of manual rows there were, and the registry is untouched. *)
Theorem delete_manual_button_keeps_imports (rows : list (transaction A))
    (w : world A) (Hdf : df w = Some rows) :
  df (delete_manual_button json_encodable w).2 =
    Some (filter (λ r, addedManually r = false) rows) ∧
  (delete_manual_button json_encodable w).1 =
    [OkManualDeleted (manual_count rows)] ∧
  manual_count (ledger (delete_manual_button json_encodable w).2) = 0 ∧
  original_count (ledger (delete_manual_button json_encodable w).2) =
    original_count rows ∧
  loaded_files (delete_manual_button json_encodable w).2 = loaded_files w.
Proof.
  assert (length rows - length (filter (λ r, addedManually r = false) rows)
          = manual_count rows) as Hcount.
  { pose proof (manual_original_count rows). unfold original_count in *. lia. }
  destruct (original_count_kept rows) as [Hmanual Horiginal].
  unfold ledger. unfold_handlers. rewrite Hdf. simpl.
  destruct (HISTORY_FILE w); destruct (forallb json_encodable _); simpl;
    by rewrite Hcount.
Qed.

(** X6: the button that deletes all data empties the session and removes
    the data file and the history file, but leaves the registry and its
    file as they were: a file loaded before is still registered, so
    uploading it again does nothing and the ledger stays empty. *)
Theorem delete_all_button_keeps_registry (rows : list (transaction A))
    (f : uploaded_file A) (w : world A)
    (Hdf : df w = Some rows) (Hreg : name f ∈ registered w) :
  (delete_all_button w).1 = [OkAllDeleted (length rows); InfoUploadAgain] ∧
  df (delete_all_button w).2 = None ∧
  DATA_FILE (delete_all_button w).2 = Absent ∧
  HISTORY_FILE (delete_all_button w).2 = Absent ∧
  loaded_files (delete_all_button w).2 = loaded_files w ∧
  FILES_LIST_FILE (delete_all_button w).2 = FILES_LIST_FILE w ∧
  upload f (delete_all_button w).2 = (tt, (delete_all_button w).2) ∧
  df (run [f] (Some DeleteAll) w).2 = None.
Proof.
  assert (delete_all_button w =
          ([OkAllDeleted (length rows); InfoUploadAgain],
           World None (loaded_files w) Absent Absent (FILES_LIST_FILE w)
                 (screen w) (clock w) (ticks w))) as Hall.
  { unfold_handlers. by rewrite Hdf. }
  rewrite Hall. cbn [fst snd]. do 6 (split; [done|]).
  assert (∀ w0 : world A, loaded_files w0 = loaded_files w →
            upload f w0 = (tt, w0)) as Hskip.
  { intros w0 Hw0. apply upload_one_registered. unfold registered in *.
    by rewrite Hw0. }
  split; [by apply Hskip|].
  unfold script. simpl. unfold mbind, App_bind.
  rewrite (Hskip w eq_refl). unfold mret, App_ret, get_df, get_loaded_files.
  simpl. rewrite Hdf, Hall, Hskip; done.
Qed.

(** X7: the reset button empties the registry and its file and drops the
    frame of the session; the data file then holds an empty array, which
    [load_saved_data] reads back as a frame without columns, not as no
    frame; the log reads as before; and any file that can be read is loaded
    again, its rows becoming the ledger. *)
Theorem reset_button_clears_registry (f : uploaded_file A)
    (rows : list (transaction A)) (w : world A)
    (Hparse : parse f = inr rows) :
  (reset_button json_encodable w).1 = [OkListCleared] ∧
  loaded_files (reset_button json_encodable w).2 = [] ∧
  FILES_LIST_FILE (reset_button json_encodable w).2 = Json [] ∧
  df (reset_button json_encodable w).2 = None ∧
  DATA_FILE (reset_button json_encodable w).2 = Json [] ∧
  (load_saved_data (reset_button json_encodable w).2).1 = (Some Bare, []) ∧
  log_of (reset_button json_encodable w).2 = log_of w ∧
  df (upload f (reset_button json_encodable w).2).2 = Some rows ∧
  registered (upload f (reset_button json_encodable w).2).2 = [name f].
Proof.
  assert (loaded_files (reset_button json_encodable w).2 = [] ∧
          df (reset_button json_encodable w).2 = None) as [Hfiles Hdf].
  { unfold_handlers. simpl. by destruct (HISTORY_FILE w). }
  assert (name f ∉ registered (reset_button json_encodable w).2) as Hreg.
  { unfold registered. rewrite Hfiles. apply not_elem_of_nil. }
  destruct (upload_one_loaded to_numeric to_datetime json_encodable f rows _
              Hreg Hparse) as (Hfiles' & Hdf' & _).
  rewrite Hdf'. unfold registered. rewrite Hfiles', Hfiles, Hdf.
  unfold log_of. unfold_handlers. simpl.
  by destruct (HISTORY_FILE w).
Qed.
(** ** Uploads, deleted files and the ledger *)

Lemma registered_rows_app (l k : list file_info) :
  registered_rows (l ++ k) = registered_rows l + registered_rows k.
Proof.
  unfold registered_rows. induction l as [|x l IH]; simpl; [done|].
  rewrite IH. lia.
Qed.

Lemma upload_one_accounts_rows (file : uploaded_file A) (w : world A) :
  ∃ new_files new_rows,
    loaded_files (upload file w).2 = loaded_files w ++ new_files ∧
    ledger (upload file w).2 = ledger w ++ new_rows ∧
    registered_rows new_files = length new_rows ∧
    (new_files = [] → df (upload file w).2 = df w).
Proof.
  destruct (upload_one_cases file w) as [Hsame|[[e Hfailed]|(rows & Hreg & Hparse)]].
  - exists [], []. rewrite Hsame. simpl. by rewrite !app_nil_r.
  - exists [], []. rewrite Hfailed. unfold ledger. simpl.
    by rewrite !app_nil_r.
  - destruct (upload_one_loaded to_numeric to_datetime json_encodable file rows
                w Hreg Hparse) as (Hfiles & Hdf & _).
    exists [FileInfo (name file) (length rows) (clock w (ticks w))], rows.
    unfold ledger. rewrite Hfiles, Hdf. simpl.
    repeat split; [lia|done].
Qed.

(** X8: the upload loop only appends: the registry it leaves starts with the
    registry it found, the ledger it leaves starts with the ledger it found,
    and the row counts of the files it registered add up to the number of
    rows it appended.  When it registers no file the frame of the session
    is the one it found. *)
Theorem upload_files_accounts_rows (uploaded : list (uploaded_file A))
    (w : world A) :
  ∃ new_files new_rows,
    loaded_files (upload_all uploaded w).2 = loaded_files w ++ new_files ∧
    ledger (upload_all uploaded w).2 = ledger w ++ new_rows ∧
    registered_rows new_files = length new_rows ∧
    (new_files = [] → df (upload_all uploaded w).2 = df w).
Proof.
  revert w. induction uploaded as [|file rest IH]; intros w.
  - exists [], []. simpl. by rewrite !app_nil_r.
  - simpl. unfold mbind, App_bind.
    destruct (upload_one_accounts_rows file w)
      as (files1 & rows1 & Hfiles1 & Hrows1 & Hcount1 & Hdf1).
    destruct (upload file w) as [[] w1]. simpl in *.
    destruct (IH w1) as (files2 & rows2 & Hfiles2 & Hrows2 & Hcount2 & Hdf2).
    exists (files1 ++ files2), (rows1 ++ rows2).
    rewrite Hfiles2, Hrows2, Hfiles1, Hrows1, registered_rows_app, length_app,
      !app_assoc.
    repeat split; [lia|].
    intros [-> ->]%app_eq_nil. rewrite Hdf2, Hdf1; done.
Qed.

Lemma delete_not_registered (files : list file_info) (idx : nat)
    (info : file_info) :
  NoDup (map file_name files) → files !! idx = Some info →
  file_name info ∉ map file_name (delete idx files).
Proof.
  intros Hnodup Hidx.
  rewrite <- (take_drop_middle files idx info Hidx) in Hnodup.
  rewrite delete_take_drop.
  change (map file_name) with (fmap (M:=list) file_name) in *.
  rewrite fmap_app in *. rewrite fmap_cons in Hnodup.
  apply NoDup_app in Hnodup as (_ & Hfront & Hback).
  apply NoDup_cons in Hback as [Hback _].
  intros [Hin|Hin]%elem_of_app; [|done].
  apply (Hfront _ Hin). apply elem_of_cons. by left.
Qed.

(** X9: deleting a file in the sidebar only takes it off the registry; its
    rows stay in the ledger.  While the uploader still holds a readable file
    of that name, the rerun that ends the handler loads the file again: its
    rows are appended a second time to the ledger as it was, and the file is
    registered again, at the end of the list. *)
Theorem delete_file_reloads_held_file (f : uploaded_file A)
    (rows : list (transaction A)) (idx : nat) (info : file_info)
    (w : world A)
    (Hparse : parse f = inr rows)
    (Hidx : loaded_files w !! idx = Some info)
    (Hname : file_name info = name f)
    (Hunique : NoDup (registered w)) :
  (delete_file_button idx w).1 = [OkFileRemoved (name f)] ∧
  df (delete_file_button idx w).2 = df w ∧
  loaded_files (delete_file_button idx w).2 = delete idx (loaded_files w) ∧
  (run [f] (Some (DeleteFile idx)) w).1 = [OkFileRemoved (name f)] ∧
  df (run [f] (Some (DeleteFile idx)) w).2 = Some (ledger w ++ rows) ∧
  loaded_files (run [f] (Some (DeleteFile idx)) w).2 =
    delete idx (loaded_files w) ++
    [FileInfo (name f) (length rows) (clock w (ticks w))].
Proof.
  assert (delete_file_button idx w =
          ([OkFileRemoved (name f)],
           World (df w) (delete idx (loaded_files w)) (DATA_FILE w)
                 (HISTORY_FILE w) (Json (delete idx (loaded_files w)))
                 (screen w) (clock w) (ticks w))) as Hdelete.
  { unfold_handlers. simpl. by rewrite Hidx, Hname. }
  rewrite Hdelete. cbn [fst snd]. do 3 (split; [done|]).
  assert (upload f w = (tt, w)) as Hskip.
  { apply upload_one_registered. unfold registered. rewrite <- Hname.
    change (map file_name) with (fmap (M:=list) file_name).
    apply list_elem_of_fmap_2. by eapply list_elem_of_lookup_2. }
  set (w1 := World (df w) (delete idx (loaded_files w)) (DATA_FILE w)
                   (HISTORY_FILE w) (Json (delete idx (loaded_files w)))
                   (screen w) (clock w) (ticks w)) in *.
  assert (name f ∉ registered w1) as Hreg.
  { unfold registered, w1. simpl. rewrite <- Hname.
    by apply delete_not_registered. }
  destruct (upload_one_loaded to_numeric to_datetime json_encodable f rows w1
              Hreg Hparse) as (Hfiles & Hdf & _).
  unfold script. simpl. unfold mbind, App_bind.
  rewrite Hskip. unfold mret, App_ret. cbn [fst snd]. rewrite Hdelete.
  cbn [fst snd]. fold w1.
  destruct (upload f w1) as [[] w2]. simpl in *.
  by rewrite Hdf, Hfiles.
Qed.

(** ** The statistics after a manual entry *)

(** ** The data file follows the ledger *)

Lemma upload_one_data_saved (f : uploaded_file A) (w : world A) :
  data_saved json_encodable w → data_saved json_encodable (upload f w).2.
Proof.
  intros Hw.
  destruct (upload_one_cases f w) as [->|[[e ->]|(rows & Hreg & Hparse)]];
    [done..|].
  unfold data_saved, upload_one, mbind, App_bind, get_loaded_files.
  rewrite decide_False by done.
  rewrite (load_excel_file_loaded _ _ _ _ w Hparse).
  unfold_handlers. simpl.
  destruct (HISTORY_FILE w); destruct (forallb json_encodable _) eqn:E; simpl;
    intros ? [= <-]; by rewrite E.
Qed.

Lemma handlers_data_saved (w : world A) :
  data_saved json_encodable w →
  (∀ f, data_saved json_encodable (submit f w).2) ∧
  data_saved json_encodable (remove_duplicates_button json_encodable w).2 ∧
  data_saved json_encodable (delete_manual_button json_encodable w).2 ∧
  data_saved json_encodable (delete_all_button w).2 ∧
  data_saved json_encodable (reset_button json_encodable w).2 ∧
  data_saved json_encodable (clear_history_button w).2 ∧
  (∀ idx, data_saved json_encodable (delete_file_button idx w).2).
Proof.
  unfold data_saved. intros Hw.
  repeat split; intros; unfold_handlers; simpl in *;
    repeat case_match; simplify_eq/=;
    first
      [ done
      | congruence
      | match goal with
        | Hdf : df w = Some ?rows, E : forallb _ ?rows = _ |- _ =>
            by rewrite (Hw _ Hdf), E
        end ].
Qed.

(** X17: if the data file holds the rows of the session's frame whenever
    [json.dump] can write them all, and is unreadable otherwise, this is
    still so after any session: every handler that changes the frame saves
    it, and the handlers that drop the frame leave no frame to compare. *)
Theorem session_keeps_data_saved
    (runs : list (list (uploaded_file A) * option (click A))) (w : world A) :
  data_saved json_encodable w →
  data_saved json_encodable (run_all runs w).2.
Proof.
  apply (session_preserves (data_saved json_encodable)).
  intros uploaded pressed w0.
  apply (script_preserves (data_saved json_encodable)); intros;
    try (by apply upload_one_data_saved);
    match goal with
    | Hw : data_saved json_encodable ?w |- _ =>
        destruct (handlers_data_saved w Hw) as (? & ? & ? & ? & ? & ? & ?)
    end; done.
Qed.

(** ** Running the upload loop again *)

Lemma same_state_refl (w : world A) : same_state w w.
Proof. by unfold same_state. Qed.

Lemma same_state_trans (w1 w2 w3 : world A) :
  same_state w1 w2 → same_state w2 w3 → same_state w1 w3.
Proof.
  unfold same_state. intros (?&?&?&?&?&?&?) (?&?&?&?&?&?&?).
  repeat split; congruence.
Qed.

Lemma upload_one_registered_mono (f : uploaded_file A) (w : world A)
    (file : string) :
  file ∈ registered w → file ∈ registered (upload f w).2.
Proof.
  intros Hin.
  destruct (upload_one_cases f w) as [->|[[e ->]|(rows & Hreg & Hparse)]];
    [done..|].
  destruct (upload_one_loaded to_numeric to_datetime json_encodable f rows w
              Hreg Hparse) as (Hfiles & _).
  unfold registered in *. rewrite Hfiles.
  change (map file_name) with (fmap (M:=list) file_name) in *.
  rewrite fmap_app. apply elem_of_app. by left.
Qed.

(** After the loop every file it was given is registered or cannot be
    read. *)
Lemma upload_files_settles (uploaded : list (uploaded_file A))
    (w : world A) (f : uploaded_file A) :
  f ∈ uploaded →
  name f ∈ registered (upload_all uploaded w).2 ∨ ∃ e, parse f = inl e.
Proof.
  revert w. induction uploaded as [|g uploaded IH]; intros w.
  - by intros ?%not_elem_of_nil.
  - intros [->|Hin]%elem_of_cons; simpl; unfold mbind, App_bind.
    + destruct (parse g) as [e|rows] eqn:Hparse; [right; by exists e|left].
      assert (name g ∈ registered (upload g w).2) as Hreg.
      { destruct (decide (name g ∈ registered w)) as [Hreg|Hreg].
        - by rewrite upload_one_registered.
        - destruct (upload_one_loaded to_numeric to_datetime json_encodable g
                      rows w Hreg Hparse) as (Hfiles & _).
          unfold registered. rewrite Hfiles.
          change (map file_name) with (fmap (M:=list) file_name).
          rewrite fmap_app. apply elem_of_app. right. by left. }
      destruct (upload g w) as [[] w1]. simpl in Hreg.
      by apply (upload_files_preserves (λ w, name g ∈ registered w));
        [intros; apply upload_one_registered_mono|].
    + destruct (upload g w) as [[] w1]. by apply IH.
Qed.

(** A loop over files that are registered or cannot be read changes the
    page only. *)
Lemma upload_files_settled (uploaded : list (uploaded_file A))
    (w : world A) :
  (∀ f, f ∈ uploaded → name f ∈ registered w ∨ ∃ e, parse f = inl e) →
  same_state w (upload_all uploaded w).2.
Proof.
  revert w. induction uploaded as [|g uploaded IH]; intros w Hsettled.
  - apply same_state_refl.
  - simpl. unfold mbind, App_bind.
    assert (same_state w (upload g w).2) as Hstep.
    { destruct (upload_one_cases g w) as [->|[[e ->]|(rows & Hreg & Hparse)]].
      - apply same_state_refl.
      - by unfold same_state.
      - destruct (Hsettled g (ltac:(by left))) as [?|[e He]]; [done|].
        congruence. }
    destruct (upload g w) as [[] w1]. simpl in Hstep.
    apply (same_state_trans _ w1); [done|]. apply IH.
    intros f Hf. destruct (Hsettled f (ltac:(by right))) as [Hreg|?]; [|by right].
    left. unfold registered in *.
    destruct Hstep as (_ & <- & _). done.
Qed.

(** X18: once the upload loop has run over the files held by the uploader,
    running it again over the same files, from any state with the same
    registry, changes nothing but the page: neither the frame, the registry,
    the three files nor the clock.  So the rerun that ends a handler which
    leaves the registry alone loads nothing. *)
Theorem upload_files_again (uploaded : list (uploaded_file A))
    (w w2 : world A)
    (Hregistry : loaded_files w2 = loaded_files (upload_all uploaded w).2) :
  same_state w2 (upload_all uploaded w2).2.
Proof.
  apply upload_files_settled. intros f Hf.
  destruct (upload_files_settles uploaded w f Hf) as [Hreg|?]; [|by right].
  left. unfold registered in *. by rewrite Hregistry.
Qed.

Lemma duplicates_remove_duplicates (rows : list (transaction A)) :
  duplicates (remove_duplicates rows) = [].
Proof.
  apply duplicates_nil_NoDup. rewrite remove_duplicates_keep_unseen.
  apply keep_unseen_NoDup.
Qed.

(** X19: after a run of the script in which the duplicate-removal button
    was pressed, rerun included, the scan of the session's frame finds no
    duplicate, provided the registry is not empty (with an empty registry
    the page shows no scan and no button). *)
Theorem removal_run_leaves_no_duplicates
    (uploaded : list (uploaded_file A)) (w : world A)
    (rows : list (transaction A))
    (Hdf : df (run uploaded (Some RemoveDuplicates) w).2 = Some rows)
    (Hfiles : loaded_files (run uploaded (Some RemoveDuplicates) w).2 ≠ []) :
  duplicates rows = [].
Proof.
  revert Hdf Hfiles. unfold script, mbind, App_bind.
  destruct (upload_all uploaded w) as [[] w1] eqn:E1.
  unfold get_df, get_loaded_files. cbv beta iota.
  destruct (df w1) as [rows1|] eqn:Hdf1; [|by intros ? _; simpl in *; congruence].
  destruct (loaded_files w1) as [|info files] eqn:Hfiles1; [by simpl|].
  destruct (duplicates rows1) as [|r dups] eqn:Hscan.
  { simpl. rewrite Hdf1. by intros [= <-] _. }
  destruct (remove_duplicates_button_rows json_encodable rows1 w1 Hdf1)
    as [Hdf2 _].
  assert (loaded_files (remove_duplicates_button json_encodable w1).2 =
          loaded_files (upload_all uploaded w).2) as Hregistry.
  { rewrite E1. unfold_handlers. rewrite Hdf1. simpl.
    by destruct (HISTORY_FILE w1); destruct (forallb json_encodable _). }
  pose proof (upload_files_settled uploaded
                (remove_duplicates_button json_encodable w1).2) as Hsame.
  destruct (remove_duplicates_button json_encodable w1) as [[] w2].
  simpl in *.
  assert (same_state w2 (upload_all uploaded w2).2) as (Hdf3 & _).
  { apply Hsame. intros f Hf.
    destruct (upload_files_settles uploaded w f Hf) as [Hreg|?]; [|by right].
    left. unfold registered in *. by rewrite Hregistry. }
  destruct (upload_all uploaded w2) as [[] w3]. simpl in *.
  rewrite <- Hdf3, Hdf2. intros [= <-] _. apply duplicates_remove_duplicates.
Qed.
End script_facts.

(** * Properties of the data page and of the pie charts *)

Section views_facts.
Context {A : Type} `{AmountOrder A}.

Lemma filter_unless (C : Prop) `{Decision C} (f : transaction A → bool)
    (l : list (transaction A)) :
  (if decide C then l else filter (λ r, f r = true) l) =
  filter (λ r, bool_decide C || f r = true) l.
Proof.
  destruct (decide C) as [HC|HC].
  - rewrite bool_decide_eq_true_2 by done. simpl.
    induction l as [|r l IH]; [done|].
    by rewrite filter_cons, decide_True, <- IH by done.
  - rewrite bool_decide_eq_false_2 by done. done.
Qed.

Lemma filtered_df_filter (m a : cell A) (t : type_filter)
    (df : list (transaction A)) :
  filtered_df m a t df = filter (λ r, shown_row m a t r = true) df.
Proof.
  unfold filtered_df. cbv zeta. rewrite !filter_unless.
  destruct t; rewrite !list_filter_filter; apply list_filter_iff; intros r;
    unfold shown_row; rewrite ?andb_true_iff; simpl; tauto.
Qed.

(** X15: the table of the data page lists ledger rows, in ledger order; a
    row is listed exactly when it passes the three selections, a selection
    ['الكل'] letting every row pass, a month or account selection only the
    rows whose cell equals it (an empty cell equals nothing) and a type
    selection only the rows whose amount of that type is above zero; with
    ['الكل'] three times the table is the ledger; filtering the table again
    by the same selections changes nothing. *)
Theorem filtered_df_lists_selected (m a : cell A) (t : type_filter)
    (df : list (transaction A)) :
  filtered_df m a t df `sublist_of` df ∧
  (∀ r, r ∈ filtered_df m a t df ↔
     r ∈ df ∧
     (m = Text ALL ∨
      (isna (t_month r) = false ∧ cell_key (t_month r) = cell_key m)) ∧
     (a = Text ALL ∨
      (isna (t_account r) = false ∧ cell_key (t_account r) = cell_key a)) ∧
     match t with
     | AllTypes => True
     | Revenues => apos (t_revenue r) = true
     | Expenses => apos (t_expense r) = true
     end) ∧
  filtered_df (Text ALL) (Text ALL) AllTypes df = df ∧
  filtered_df m a t (filtered_df m a t df) = filtered_df m a t df.
Proof.
  rewrite !filtered_df_filter.
  split; [apply sublist_filter|]. split; [|split].
  - intros r. rewrite list_elem_of_filter. unfold shown_row, cell_equals.
    rewrite !andb_true_iff, !orb_true_iff, !bool_decide_eq_true,
      !andb_true_iff, !negb_true_iff, !bool_decide_eq_true.
    destruct t; intuition.
  - induction df as [|r df IH]; [done|].
    rewrite filter_cons, decide_True, IH; [done|].
    unfold shown_row. by rewrite !bool_decide_eq_true_2.
  - by apply list_filter_filter_r.
Qed.

Section top.
Variable sort_values_descending : list (cell A * A) → list (cell A * A).
Hypothesis descending_Permutation : ∀ l, sort_values_descending l ≡ₚ l.
Hypothesis descending_sorted :
  ∀ l, StronglySorted (λ x y, aleb y.2 x.2 = true) (sort_values_descending l).

#[local] Abbreviation top := (top_categories sort_values_descending).





End top.
End views_facts.

(** * Concrete runs *)

(** C1 (witness): the three rows of the specification's example share the
    key (2025-01-01, "Bank", 0, 500); the scan returns all three, the
    removal keeps the first and drops two. *)
Lemma duplicate_scan_and_removal_witness :
  duplicates [Z_row 20250101 "يناير" "Bank" 0 500;
              Z_row 20250101 "فبراير" "Bank" 0 500;
              Z_row 20250101 "مارس" "Bank" 0 500] =
    [Z_row 20250101 "يناير" "Bank" 0 500;
     Z_row 20250101 "فبراير" "Bank" 0 500;
     Z_row 20250101 "مارس" "Bank" 0 500] ∧
  remove_duplicates [Z_row 20250101 "يناير" "Bank" 0 500;
                     Z_row 20250101 "فبراير" "Bank" 0 500;
                     Z_row 20250101 "مارس" "Bank" 0 500] =
    [Z_row 20250101 "يناير" "Bank" 0 500] ∧
  length [Z_row 20250101 "يناير" "Bank" 0 500;
          Z_row 20250101 "فبراير" "Bank" 0 500;
          Z_row 20250101 "مارس" "Bank" 0 500] -
    length (remove_duplicates [Z_row 20250101 "يناير" "Bank" 0 500;
                               Z_row 20250101 "فبراير" "Bank" 0 500;
                               Z_row 20250101 "مارس" "Bank" 0 500]) ≤
  length (duplicates [Z_row 20250101 "يناير" "Bank" 0 500;
                      Z_row 20250101 "فبراير" "Bank" 0 500;
                      Z_row 20250101 "مارس" "Bank" 0 500]).
Proof.
  split; [reflexivity|]. split; [reflexivity|].
  apply (duplicate_scan_and_removal
           [Z_row 20250101 "يناير" "Bank" 0 500;
            Z_row 20250101 "فبراير" "Bank" 0 500;
            Z_row 20250101 "مارس" "Bank" 0 500]).
Defined.

(** C5 (witness): rows of March, then January, then a label outside the
    twelve months roll up as January, March, [NaN], and so do the same rows
    in another order. *)
Lemma monthly_data_canonical_order_witness :
  map m_month
    (monthly_data [Z_row 20250301 "مارس" "بنك" 0 500;
                   Z_row 20250105 "يناير" "نقد" 10 0;
                   Z_row 20250106 "محرم" "نقد" 5 0;
                   Z_row 20250320 "مارس" "بنك" 20 0]) =
    [Some "يناير"; Some "مارس"; None] ∧
  map m_month
    (monthly_data [Z_row 20250105 "يناير" "نقد" 10 0;
                   Z_row 20250301 "مارس" "بنك" 0 500;
                   Z_row 20250106 "محرم" "نقد" 5 0;
                   Z_row 20250320 "مارس" "بنك" 20 0]) =
  map m_month
    (monthly_data [Z_row 20250301 "مارس" "بنك" 0 500;
                   Z_row 20250105 "يناير" "نقد" 10 0;
                   Z_row 20250106 "محرم" "نقد" 5 0;
                   Z_row 20250320 "مارس" "بنك" 20 0]).
Proof.
  split; [reflexivity|].
  apply (monthly_data_canonical_order
           [Z_row 20250301 "مارس" "بنك" 0 500;
            Z_row 20250105 "يناير" "نقد" 10 0;
            Z_row 20250106 "محرم" "نقد" 5 0;
            Z_row 20250320 "مارس" "بنك" 20 0]).
  apply perm_swap.
Defined.

(** C3 (witness): 101 calls on an absent log, the clock reading 0 to 100:
    the log holds the entries stamped 100 down to 1, and the one stamped 0
    is gone. *)
Lemma audit_log_capped_witness :
  map timestamp
    (load_history
       (add_all_to_history (("حدث", "تفاصيل") :: replicate 100 ("حدث", "تفاصيل"))
          (counting_world (A:=Z))).2).1 =
    map pretty (reverse (seq 1 100)) ∧
  length
    (load_history
       (add_all_to_history (("حدث", "تفاصيل") :: replicate 100 ("حدث", "تفاصيل"))
          (counting_world (A:=Z))).2).1 ≤ 100.
Proof.
  split; [by vm_compute|].
  apply (audit_log_capped (counting_world (A:=Z)) "حدث" "تفاصيل"
           (replicate 100 ("حدث", "تفاصيل"))).
Defined.

(** C6 (witness): the three rows sharing a key, removed twice. *)
Lemma remove_duplicates_idempotent_witness :
  remove_duplicates
    (remove_duplicates [Z_row 20250101 "يناير" "Bank" 0 500;
                        Z_row 20250101 "فبراير" "Bank" 0 500;
                        Z_row 20250101 "مارس" "Bank" 0 500]) =
    [Z_row 20250101 "يناير" "Bank" 0 500] ∧
  last (screen
          (remove_duplicates_button never_encodable
             (remove_duplicates_button never_encodable
                (World (Some [Z_row 20250101 "يناير" "Bank" 0 500;
                              Z_row 20250101 "فبراير" "Bank" 0 500;
                              Z_row 20250101 "مارس" "Bank" 0 500])
                       [] Absent Absent Absent [] pretty 0)).2).2) =
    Some (OkDuplicatesRemoved 0).
Proof.
  split; [reflexivity|].
  apply (remove_duplicates_idempotent never_encodable
           [Z_row 20250101 "يناير" "Bank" 0 500]
           (World (Some [Z_row 20250101 "يناير" "Bank" 0 500;
                         Z_row 20250101 "فبراير" "Bank" 0 500;
                         Z_row 20250101 "مارس" "Bank" 0 500])
                  [] Absent Absent Absent [] pretty 0)).
  by eexists.
Defined.

(** C7 (witness): a workbook is loaded, then a file of the same name is
    uploaded again. *)
Lemma upload_same_name_is_noop_witness :
  registered
    (upload_one sample_to_numeric sample_to_datetime never_encodable
       workbook_repeated_labels blank_world).2 = ["a.xlsx"] ∧
  upload_one sample_to_numeric sample_to_datetime never_encodable
    (UploadedFile "a.xlsx" (Some [labels_row; labels_row]))
    (upload_one sample_to_numeric sample_to_datetime never_encodable
       workbook_repeated_labels blank_world).2 =
  (tt, (upload_one sample_to_numeric sample_to_datetime never_encodable
          workbook_repeated_labels blank_world).2).
Proof.
  split; [reflexivity|].
  apply (upload_same_name_is_noop sample_to_numeric sample_to_datetime
           never_encodable workbook_repeated_labels
           (UploadedFile "a.xlsx" (Some [labels_row; labels_row]))
           blank_world eq_refl).
  right. eexists. reflexivity.
Defined.

(** C8 (witness): a workbook whose only mention of the date label is in its
    first row, followed in the batch by one that loads. *)
Lemma header_not_found_witness :
  parse_workbook sample_to_numeric sample_to_datetime workbook_labels_first =
    inl HeaderNotFound ∧
  registered
    (upload_files sample_to_numeric sample_to_datetime never_encodable
       [workbook_labels_first; workbook_repeated_labels] blank_world).2 =
    ["a.xlsx"].
Proof.
  assert (∀ row : list (cell Z),
            row ∈ body (read_excel [labels_row; sample_row] 0) →
            mentions_date_label row = false) as Hrows.
  { intros row Hrow. apply list_elem_of_singleton in Hrow. by subst. }
  destruct (header_not_found sample_to_numeric sample_to_datetime
              never_encodable workbook_labels_first
              [labels_row; sample_row] [workbook_repeated_labels]
              blank_world eq_refl Hrows) as (Hparse & _ & Hbatch).
  split; [exact Hparse|]. rewrite Hbatch. reflexivity.
Defined.

(** C10 (witness): a workbook with a title row above the labels fails to
    load and leaves the registry empty. *)
Lemma failed_upload_changes_nothing_witness :
  parse_workbook sample_to_numeric sample_to_datetime workbook_titled =
    inl (ReadFailed (KeyError COL_DATE)) ∧
  loaded_files
    (upload_one sample_to_numeric sample_to_datetime never_encodable
       workbook_titled blank_world).2 = [] ∧
  df (upload_one sample_to_numeric sample_to_datetime never_encodable
        workbook_titled blank_world).2 = None.
Proof.
  split; [reflexivity|].
  destruct (failed_upload_changes_nothing sample_to_numeric sample_to_datetime
              never_encodable workbook_titled
              (ReadFailed (KeyError COL_DATE)) blank_world eq_refl)
    as (Hdf & Hfiles & _).
  split; [exact Hfiles|exact Hdf].
Defined.

(** C9 (witness): a form without a user name is rejected and leaves the
    session as it was; the same form with a name and a positive amount is
    accepted and appends one row. *)
Lemma manual_entry_validated_witness :
  submit_transaction never_encodable sample_format (sample_form "" 250)
    blank_world = (tt, (show ErrValidation blank_world).2) ∧
  ∃ r, df (submit_transaction never_encodable sample_format
             (sample_form "سالم" 250) blank_world).2 = Some [r] ∧
       addedManually r = true ∧
       (t_expense r ≠ 0%Z ∧ t_revenue r = 0%Z ∨
        t_expense r = 0%Z ∧ t_revenue r ≠ 0%Z).
Proof.
  split.
  - apply (manual_entry_validated never_encodable sample_format
             (sample_form "" 250) blank_world). reflexivity.
  - destruct (manual_entry_validated never_encodable sample_format
                (sample_form "سالم" 250) blank_world) as (_ & _ & _ & Hacc).
    exact (Hacc eq_refl).
Defined.

(** X1 (witness): the sample session from a world whose log is full. *)
Lemma session_keeps_log_capped_witness :
  length (log_of full_log_world) = 100 ∧
  log_capped
    (session sample_to_numeric sample_to_datetime never_encodable sample_format
       sample_runs full_log_world).2.
Proof.
  split; [reflexivity|].
  apply (session_keeps_log_capped sample_to_numeric sample_to_datetime
           never_encodable sample_format sample_runs full_log_world).
  unfold log_capped. vm_compute. lia.
Defined.

(** X2 (witness): the sample session from the blank world. *)
Lemma session_keeps_registry_saved_witness :
  registry_saved
    (session sample_to_numeric sample_to_datetime never_encodable sample_format
       sample_runs blank_world).2.
Proof.
  apply (session_keeps_registry_saved sample_to_numeric sample_to_datetime
           never_encodable sample_format sample_runs blank_world).
  reflexivity.
Defined.

(** X3 (witness): the sample session from the world with one workbook. *)
Lemma session_keeps_names_unique_witness :
  registered loaded_world = ["a.xlsx"] ∧
  NoDup
    (registered
       (session sample_to_numeric sample_to_datetime never_encodable
          sample_format sample_runs loaded_world).2).
Proof.
  split; [reflexivity|].
  apply (session_keeps_names_unique sample_to_numeric sample_to_datetime
           never_encodable sample_format sample_runs loaded_world).
  vm_compute. apply NoDup_singleton.
Defined.

(** X5 (witness): one imported row and one manual entry. *)
Lemma delete_manual_button_keeps_imports_witness :
  df (delete_manual_button never_encodable manual_world).2 =
    Some [Z_row 20250101 "يناير" "بنك" 0 500] ∧
  (delete_manual_button never_encodable manual_world).1 = [OkManualDeleted 1].
Proof.
  destruct (delete_manual_button_keeps_imports never_encodable
              [Z_row 20250101 "يناير" "بنك" 0 500;
               new_transaction (sample_form "سالم" 250) "0"]
              manual_world eq_refl) as (Hdf & Hshown & _).
  split; [exact Hdf|exact Hshown].
Defined.

(** X6 (witness): all data is deleted while the uploader holds the workbook
    that was loaded. *)
Lemma delete_all_button_keeps_registry_witness :
  df (script sample_to_numeric sample_to_datetime never_encodable sample_format
        [workbook_repeated_labels] (Some DeleteAll) loaded_world).2 = None ∧
  registered (delete_all_button loaded_world).2 = ["a.xlsx"].
Proof.
  split; [|reflexivity].
  eapply (delete_all_button_keeps_registry sample_to_numeric sample_to_datetime
            never_encodable sample_format _ workbook_repeated_labels
            loaded_world).
  - reflexivity.
  - vm_compute. by left.
Defined.

(** X7 (witness): the list is reset and the workbook uploaded again. *)
Lemma reset_button_clears_registry_witness :
  registered (reset_button never_encodable loaded_world).2 = [] ∧
  registered
    (upload_one sample_to_numeric sample_to_datetime never_encodable
       workbook_repeated_labels
       (reset_button never_encodable loaded_world).2).2 = ["a.xlsx"].
Proof.
  split; [reflexivity|].
  eapply (reset_button_clears_registry sample_to_numeric sample_to_datetime
            never_encodable workbook_repeated_labels _ loaded_world).
  reflexivity.
Defined.

(** X9 (witness): the workbook is taken off the list while the uploader
    holds it: its two rows are in the ledger twice. *)
Lemma delete_file_reloads_held_file_witness :
  length (ledger loaded_world) = 2 ∧
  length <$>
    df (script sample_to_numeric sample_to_datetime never_encodable
          sample_format [workbook_repeated_labels] (Some (DeleteFile 0))
          loaded_world).2 = Some 4.
Proof.
  split; [reflexivity|].
  assert (NoDup (registered loaded_world)) as Hunique.
  { vm_compute. apply NoDup_singleton. }
  destruct (delete_file_reloads_held_file sample_to_numeric sample_to_datetime
              never_encodable sample_format workbook_repeated_labels _ 0 _
              loaded_world eq_refl eq_refl eq_refl Hunique)
    as (_ & _ & _ & _ & Hdf & _).
  rewrite Hdf. reflexivity.
Defined.



(** X13 (witness): integer amounts; the row without a month counts in the
    total of the ledger and in no month. *)
Lemma monthly_data_accounts_for_labelled_rows_witness :
  column_sum t_revenue [Z_row 20250301 "مارس" "بنك" 0 500;
                        unlabelled_row 7;
                        Z_row 20250105 "يناير" "نقد" 0 30] = 537%Z ∧
  total (map m_revenue
           (monthly_data [Z_row 20250301 "مارس" "بنك" 0 500;
                          unlabelled_row 7;
                          Z_row 20250105 "يناير" "نقد" 0 30])) = 530%Z.
Proof.
  split; [reflexivity|].
  destruct (@monthly_data_accounts_for_labelled_rows Z Z_amount Z_exact
              Z_commutative
              [Z_row 20250301 "مارس" "بنك" 0 500;
               unlabelled_row 7;
               Z_row 20250105 "يناير" "نقد" 0 30]) as (Hrevenue & _).
  exact Hrevenue.
Defined.




(** X17 (witness): the sample session from the world with one workbook,
    whose rows cannot be written. *)
Lemma session_keeps_data_saved_witness :
  DATA_FILE loaded_world = Garbled ∧
  data_saved never_encodable
    (session sample_to_numeric sample_to_datetime never_encodable sample_format
       sample_runs loaded_world).2.
Proof.
  split; [reflexivity|].
  apply (session_keeps_data_saved sample_to_numeric sample_to_datetime
           never_encodable sample_format sample_runs loaded_world).
  intros rows [= <-]. reflexivity.
Defined.

(** X18 (witness): a workbook that loads and one that does not, then a
    manual entry, then the loop again. *)
Lemma upload_files_again_witness :
  same_state
    (submit_transaction never_encodable sample_format (sample_form "سالم" 250)
       (upload_files sample_to_numeric sample_to_datetime never_encodable
          [workbook_repeated_labels; workbook_titled] blank_world).2).2
    (upload_files sample_to_numeric sample_to_datetime never_encodable
       [workbook_repeated_labels; workbook_titled]
       (submit_transaction never_encodable sample_format
          (sample_form "سالم" 250)
          (upload_files sample_to_numeric sample_to_datetime never_encodable
             [workbook_repeated_labels; workbook_titled] blank_world).2).2).2.
Proof.
  apply (upload_files_again sample_to_numeric sample_to_datetime
           never_encodable [workbook_repeated_labels; workbook_titled]
           blank_world).
  reflexivity.
Defined.

(** X19 (witness): the three rows sharing a key, in a registered
    workbook. *)
Lemma removal_run_leaves_no_duplicates_witness :
  df (script sample_to_numeric sample_to_datetime never_encodable sample_format
        [] (Some RemoveDuplicates) duplicated_world).2 =
    Some [Z_row 20250101 "يناير" "Bank" 0 500] ∧
  duplicates [Z_row 20250101 "يناير" "Bank" 0 500] = [].
Proof.
  assert (df (script sample_to_numeric sample_to_datetime never_encodable
                sample_format [] (Some RemoveDuplicates) duplicated_world).2 =
            Some [Z_row 20250101 "يناير" "Bank" 0 500]) as Hdf by reflexivity.
  split; [exact Hdf|].
  apply (removal_run_leaves_no_duplicates sample_to_numeric sample_to_datetime
           never_encodable sample_format [] duplicated_world
           [Z_row 20250101 "يناير" "Bank" 0 500] Hdf).
  vm_compute. discriminate.
Defined.
